(** * Data-access adapters of the clinic dashboard

    A shallow embedding of the three React hooks of the repository
    ([useProfessionals], [useTodayAppointments], [useStats]) together with
    the properties that their specification states about them.

    The hooks are asynchronous closures over three collaborators: the
    authentication context, the toast notifier and the Supabase client.
    They are modelled as computations in a state-and-exception monad over
    a system state that holds the hook's React state, the remote store,
    the wall clock and a trace of the observable events (requests sent,
    toasts raised, console output). *)

From Stdlib Require Import ZArith QArith Qround Ascii String Sorted.
From stdpp Require Import gmap strings list fin_maps pretty.

Local Open Scope Z_scope.

(** ** JavaScript values and objects *)

Module Js.

(** The values found in the columns of a row.  Arrays only occur as
    arrays of strings ([dias_atendimento]). *)
Inductive Value : Type :=
| Null
| Str (s : string)
| Num (n : Z)
| Arr (l : list string).

#[global] Instance Value_eq_dec : EqDecision Value.
Proof. solve_decision. Defined.

(** An [Error] object, as thrown by the hooks or reported by the
    client: only its [message] is ever read. *)
Record Error : Type := { message : string }.

(** [s || d] on strings: the empty string is falsy. *)
Definition or_str (s d : string) : string :=
  if decide (s = "") then d else s.

(** [v || d] where [v] is a column shown as text: [undefined], [null],
    [""] and [0] are falsy, any other value stands for itself. *)
Definition or_default (v : option Value) (d : string) : string :=
  match v with
  | Some (Str s) => or_str s d
  | Some (Num n) => if n =? 0 then d else pretty n
  | Some (Arr l) => String.concat "," l
  | Some Null | None => d
  end.

(** [n || 0] on a count that may be [null]. *)
Definition or_zero (n : option Z) : Z :=
  match n with
  | Some k => k
  | None => 0
  end.

(** Truthiness of a count that may be [null]: [null] and [0] are falsy. *)
Definition truthy_count (n : option Z) : bool :=
  match n with
  | Some k => negb (k =? 0)
  | None => false
  end.

(** String conversion, as in a template literal; an absent property is
    [undefined]. *)
Definition to_string (v : option Value) : string :=
  match v with
  | None => "undefined"
  | Some Null => "null"
  | Some (Str s) => s
  | Some (Num n) => pretty n
  | Some (Arr l) => String.concat "," l
  end.

(** [Math.round]: the integer nearest to [q], ties towards plus infinity. *)
Definition Math_round (q : Q) : Z := Qfloor (q + (1 # 2))%Q.

(** [Math.min] on integers. *)
Definition Math_min (a b : Z) : Z := Z.min a b.

End Js.

(** ** The [Date] object

    A [Date] is its time value: milliseconds since 1970-01-01T00:00:00Z.
    The calendar is the proleptic Gregorian one.  The host's time zone
    gives the offset of local time from UTC, in milliseconds, which may
    change in the course of the year (daylight saving). *)

Module Date.

Definition msPerDay : Z := 86400000.

Record Civil : Type := { year : Z; month : Z; day : Z }.

Definition leap (y : Z) : bool :=
  ((y mod 4 =? 0) && negb (y mod 100 =? 0)) || (y mod 400 =? 0).

Definition daysInMonth (y m : Z) : Z :=
  if m =? 2 then (if leap y then 29 else 28)
  else if (m =? 4) || (m =? 6) || (m =? 9) || (m =? 11) then 30
  else 31.

Definition next_day (c : Civil) : Civil :=
  if day c <? daysInMonth (year c) (month c)
  then {| year := year c; month := month c; day := day c + 1 |}
  else if month c <? 12
  then {| year := year c; month := month c + 1; day := 1 |}
  else {| year := year c + 1; month := 1; day := 1 |}.

Definition prev_day (c : Civil) : Civil :=
  if 1 <? day c
  then {| year := year c; month := month c; day := day c - 1 |}
  else if 1 <? month c
  then {| year := year c; month := month c - 1;
          day := daysInMonth (year c) (month c - 1) |}
  else {| year := year c - 1; month := 12; day := 31 |}.

Definition epoch : Civil := {| year := 1970; month := 1; day := 1 |}.

(** The calendar date of day number [n], counted from the epoch. *)
Definition civil_of_day (n : Z) : Civil :=
  if 0 <=? n then Nat.iter (Z.to_nat n) next_day epoch
  else Nat.iter (Z.to_nat (- n)) prev_day epoch.

(** Zero-padded decimal of width [w]. *)
Definition digit (n : Z) : ascii := ascii_of_nat (48 + Z.to_nat n).

Fixpoint pad (w : nat) (n : Z) : string :=
  match w with
  | O => ""
  | S w' => pad w' (n / 10) +:+ String (digit (n mod 10)) ""
  end.

(** The year of an ISO string: four digits from 0 to 9999, otherwise a
    sign and six digits. *)
Definition isoYear (y : Z) : string :=
  if (0 <=? y) && (y <=? 9999) then pad 4 y
  else if y <? 0 then "-" +:+ pad 6 (- y)
  else "+" +:+ pad 6 y.

Definition isoDate (c : Civil) : string :=
  isoYear (year c) +:+ "-" +:+ pad 2 (month c) +:+ "-" +:+ pad 2 (day c).

Definition isoTime (ms : Z) : string :=
  pad 2 (ms / 3600000) +:+ ":" +:+ pad 2 (ms / 60000 mod 60) +:+ ":" +:+
  pad 2 (ms / 1000 mod 60) +:+ "." +:+ pad 3 (ms mod 1000).

(** [d.toISOString()]: always in UTC. *)
Definition toISOString (t : Z) : string :=
  isoDate (civil_of_day (t / msPerDay)) +:+ "T" +:+
  isoTime (t mod msPerDay) +:+ "Z".

(** [s.split(c)[0]]: the part of [s] before the first [c]. *)
Fixpoint split_head (c : ascii) (s : string) : string :=
  match s with
  | EmptyString => ""
  | String a s' => if decide (a = c) then "" else String a (split_head c s')
  end.

(** No character of [s] is [c]. *)
Fixpoint lacks (c : ascii) (s : string) : bool :=
  match s with
  | EmptyString => true
  | String a s' => negb (bool_decide (a = c)) && lacks c s'
  end.

(** A date of the calendar. *)
Definition valid (c : Civil) : Prop :=
  1 <= month c <= 12 /\ 1 <= day c <= daysInMonth (year c) (month c).

(** The time zone of the host: the offset of local time from UTC in
    milliseconds, at an instant given in UTC ([offset_at]) and at an
    instant given in local time ([offset_of_local]). *)
Record Zone : Type := {
  offset_at : Z -> Z;
  offset_of_local : Z -> Z
}.

(** A zone without daylight saving, [m] minutes east of Greenwich. *)
Definition fixed (m : Z) : Zone :=
  {| offset_at := fun _ => m * 60000; offset_of_local := fun _ => m * 60000 |}.

(** Local time value of the instant [t]. *)
Definition localTime (zone : Zone) (t : Z) : Z := t + offset_at zone t.

(** The instant whose local time value is [lt]. *)
Definition utcTime (zone : Zone) (lt : Z) : Z := lt - offset_of_local zone lt.

(** [d.getDate()]: the day of the month in local time. *)
Definition getDate (zone : Zone) (t : Z) : Z :=
  day (civil_of_day (localTime zone t / msPerDay)).

(** The local time value after [d.setDate(k)]: the day of the month
    becomes [k], the month, the year and the local time of day are
    kept. *)
Definition setDate_local (zone : Zone) (k t : Z) : Z :=
  localTime zone t + (k - getDate zone t) * msPerDay.

(** [d.setDate(k)]: the new local time value, read back as an instant. *)
Definition setDate (zone : Zone) (k t : Z) : Z :=
  utcTime zone (setDate_local zone k t).

(** The calendar date in the local time zone, as [YYYY-MM-DD]. *)
Definition localDateString (zone : Zone) (t : Z) : string :=
  isoDate (civil_of_day (localTime zone t / msPerDay)).

End Date.

(** ** The Supabase client, as the hooks see it

    A request is what the fluent query builder has accumulated when it is
    awaited; a reply is the object the awaited builder resolves to. *)

Module Supabase.

Abbreviation Row := (gmap string Js.Value).

Inductive Filter : Type :=
| f_eq (column value : string)
| f_gte (column value : string)
| f_lt (column value : string).

Inductive Verb : Type :=
| select_all
  (** [.select('*')] *)
| select_count
  (** [.select('*', { count: 'exact', head: true })] *)
| select_embed (rels : list (string * string * string))
  (** [.select('*, alias:table(column), ...')] *)
| insert (values : list Row)
| update (patch : Row)
| delete.

Record Request : Type := {
  table : string;
  verb : Verb;
  filters : list Filter;
  order : option string;   (** [.order(column, { ascending: true })] *)
  returning : bool;        (** [.select()] after a write *)
  single : bool            (** [.single()] *)
}.

(** A row together with the related rows it embeds, by alias. *)
Record Joined : Type := { row : Row; related : gmap string Row }.

Inductive Data : Type :=
| no_data
| rows (l : list Row)
| one (r : Row)
| joined (l : list Joined).

Record Reply : Type := {
  data : Data;
  error : option Js.Error;
  count : option Z
}.

(** What awaiting a request yields: the promise is fulfilled with a
    reply (which may itself carry an [error]) or it is rejected. *)
Inductive Settled : Type :=
| Fulfilled (r : Reply)
| Rejected (e : Js.Error).

(** [data || []] for a list of rows; [data?.map(f) || []] is [map f]
    of it. *)
Definition rows_or_empty (d : Data) : list Row :=
  match d with
  | no_data => []
  | rows l => l
  | one r => [r]
  | joined l => map row l
  end.

Definition joined_or_empty (d : Data) : list Joined :=
  match d with
  | no_data => []
  | rows l => map (fun r => {| row := r; related := ∅ |}) l
  | one r => [{| row := r; related := ∅ |}]
  | joined l => l
  end.

(** [data] where a single row (or [null]) is expected. *)
Definition row_or_null (d : Data) : option Row :=
  match d with
  | one r => Some r
  | _ => None
  end.

End Supabase.

Import Supabase.

(** ** Authentication context and notifier *)

(** [uid] is the [id] of the authenticated user. *)
Record User : Type := { uid : string }.

Record Auth : Type := { user : option User; authLoading : bool }.

Record Toast : Type := {
  title : string;
  description : string;
  variant : option string
}.

(** ** Observable events and the system state *)

Inductive Event : Type :=
| Sent (q : Request)
| Toasted (t : Toast)
| Logged (s : string)
| LoggedError (s : string).

Definition is_request (e : Event) : bool :=
  match e with Sent _ => true | _ => false end.

Definition is_toast (e : Event) : bool :=
  match e with Toasted _ => true | _ => false end.

Definition is_write (e : Event) : bool :=
  match e with
  | Sent q =>
      match verb q with
      | insert _ | update _ | delete => true
      | _ => false
      end
  | _ => false
  end.

(** [H] is the React state of the hook, [R] the state of the remote. *)
Record Sys (H R : Type) : Type := {
  hook : H;
  remote : R;
  now : Z;               (** the wall clock read by [new Date()]; it
                             stands still during a run *)
  tz : Date.Zone;        (** the host's time zone *)
  trace : list Event     (** oldest event first *)
}.

Arguments hook {H R} _.
Arguments remote {H R} _.
Arguments now {H R} _.
Arguments tz {H R} _.
Arguments trace {H R} _.

(** ** The monad of the hooks: state and exceptions *)

Inductive Outcome (A : Type) : Type :=
| Return (a : A)
| Throw (e : Js.Error).

Arguments Return {A} _.
Arguments Throw {A} _.

Definition M (S A : Type) : Type := S -> Outcome A * S.

Section Monad.
Context {S : Type}.

Definition ret {A} (a : A) : M S A := fun s => (Return a, s).

Definition throw {A} (e : Js.Error) : M S A := fun s => (Throw e, s).

Definition bind {A B} (m : M S A) (k : A -> M S B) : M S B :=
  fun s =>
    match m s with
    | (Return a, s') => k a s'
    | (Throw e, s') => (Throw e, s')
    end.

(** [try { m } catch (e) { h e }] *)
Definition try_catch {A} (m : M S A) (h : Js.Error -> M S A) : M S A :=
  fun s =>
    match m s with
    | (Return a, s') => (Return a, s')
    | (Throw e, s') => h e s'
    end.

(** [try { m } finally { f }]: [f] runs on both exits and the outcome
    of [m] is kept unless [f] itself throws. *)
Definition finally {A} (m : M S A) (f : M S unit) : M S A :=
  fun s =>
    match m s with
    | (o, s') =>
        match f s' with
        | (Return _, s'') => (o, s'')
        | (Throw e, s'') => (Throw e, s'')
        end
    end.
End Monad.

Notation "'let*' x ':=' m 'in' k" := (bind m (fun x => k))
  (at level 10, x name, m at level 100, k at level 200).
Notation "m ';;' k" := (bind m (fun _ => k))
  (at level 100, k at level 200, right associativity).

Section Primitives.
Context {H R : Type}.
Variable exec : Request -> R -> Settled * R.

Definition emit (e : Event) : M (Sys H R) unit :=
  fun s =>
    (Return tt,
     {| hook := hook s; remote := remote s; now := now s; tz := tz s;
        trace := trace s ++ [e] |}).

Definition console_log (msg : string) : M (Sys H R) unit := emit (Logged msg).
Definition console_error (msg : string) : M (Sys H R) unit := emit (LoggedError msg).
Definition toast (t : Toast) : M (Sys H R) unit := emit (Toasted t).

(** A [setState] call of the hook. *)
Definition set_state (f : H -> H) : M (Sys H R) unit :=
  fun s =>
    (Return tt,
     {| hook := f (hook s); remote := remote s; now := now s; tz := tz s;
        trace := trace s |}).

(** [new Date()] *)
Definition new_Date : M (Sys H R) Z := fun s => (Return (now s), s).

Definition time_zone : M (Sys H R) Date.Zone := fun s => (Return (tz s), s).

(** [await request]: the request is sent, the remote answers and moves
    on; a rejected promise is an exception at the [await]. *)
Definition await (q : Request) : M (Sys H R) Reply :=
  fun s =>
    let '(o, r') := exec q (remote s) in
    let s' := {| hook := hook s; remote := r'; now := now s; tz := tz s;
                 trace := trace s ++ [Sent q] |} in
    match o with
    | Fulfilled rep => (Return rep, s')
    | Rejected e => (Throw e, s')
    end.
End Primitives.

Arguments emit {H R} _ _.
Arguments console_log {H R} _ _.
Arguments console_error {H R} _ _.
Arguments toast {H R} _ _.
Arguments set_state {H R} _ _.
Arguments new_Date {H R} _.
Arguments time_zone {H R} _.

(** ** [useProfessionals] *)

Module Professionals.

(** The keys of the [Professional] interface. *)
Definition Professional_keys : list string :=
  ["id"; "nome"; "tipo"; "registro"; "especialidade"; "telefone"; "email";
   "horario_inicio"; "horario_fim"; "dias_atendimento"; "observacoes";
   "status"].

Record Hook : Type := { loading : bool }.

Definition initial : Hook := {| loading := false |}.

Definition unauthenticated : Js.Error :=
  {| Js.message := "Usuário não autenticado" |}.

Section WithClient.
Context {R : Type}.
Variable exec : Request -> R -> Settled * R.

Definition setLoading (b : bool) : M (Sys Hook R) unit :=
  set_state (fun _ => {| loading := b |}).

Definition getProfessionals (auth : Auth) : M (Sys Hook R) (list Row) :=
  finally
    (try_catch
       (setLoading true ;;
        if authLoading auth then
          console_log "Aguardando autenticação para carregar profissionais..." ;;
          ret []
        else
          match user auth with
          | None =>
              console_log "Usuário não autenticado para buscar profissionais" ;;
              ret []
          | Some u =>
              console_log "Buscando profissionais para usuário:" ;;
              let* reply :=
                await exec
                  {| table := "professionals"; verb := select_all;
                     filters := [f_eq "user_id" (uid u)];
                     order := Some "nome"; returning := false;
                     single := false |} in
              match error reply with
              | Some e =>
                  console_error "Erro ao buscar profissionais:" ;;
                  throw e
              | None =>
                  console_log "Profissionais encontrados:" ;;
                  ret (rows_or_empty (data reply))
              end
          end)
       (fun error =>
          console_error "Erro ao buscar profissionais:" ;;
          (match user auth with
           | Some _ =>
               toast
                 {| title := "Erro ao carregar profissionais";
                    description :=
                      Js.or_str (Js.message error)
                        "Não foi possível carregar a lista de profissionais";
                    variant := Some "destructive" |}
           | None => ret tt
           end) ;;
          ret []))
    (setLoading false).

Definition getProfessionalById (auth : Auth) (id : string)
  : M (Sys Hook R) (option Row) :=
  finally
    (try_catch
       (setLoading true ;;
        match user auth with
        | None => throw unauthenticated
        | Some u =>
            let* reply :=
              await exec
                {| table := "professionals"; verb := select_all;
                   filters := [f_eq "id" id; f_eq "user_id" (uid u)];
                   order := None; returning := false; single := true |} in
            match error reply with
            | Some e => throw e
            | None => ret (row_or_null (data reply))
            end
        end)
       (fun error =>
          console_error "Erro ao buscar profissional:" ;;
          toast
            {| title := "Erro ao carregar profissional";
               description :=
                 Js.or_str (Js.message error)
                   "Não foi possível carregar os dados do profissional";
               variant := Some "destructive" |} ;;
          ret None))
    (setLoading false).

Definition createProfessional (auth : Auth) (professionalData : Row)
  : M (Sys Hook R) (option Row) :=
  finally
    (try_catch
       (setLoading true ;;
        match user auth with
        | None => throw unauthenticated
        | Some u =>
            console_log "Criando profissional:" ;;
            let* reply :=
              await exec
                {| table := "professionals";
                   verb :=
                     insert [<["user_id" := Js.Str (uid u)]> professionalData];
                   filters := []; order := None; returning := true;
                   single := true |} in
            match error reply with
            | Some e =>
                console_error "Erro do Supabase ao criar profissional:" ;;
                throw e
            | None =>
                console_log "Profissional criado com sucesso:" ;;
                toast
                  {| title := "Profissional cadastrado com sucesso!";
                     description :=
                       Js.to_string (professionalData !! "nome")
                       +:+ " foi adicionado ao sistema.";
                     variant := None |} ;;
                ret (row_or_null (data reply))
            end
        end)
       (fun error =>
          console_error "Erro ao criar profissional:" ;;
          toast
            {| title := "Erro ao cadastrar profissional";
               description :=
                 Js.or_str (Js.message error)
                   "Não foi possível cadastrar o profissional";
               variant := Some "destructive" |} ;;
          ret None))
    (setLoading false).

(** Reading a property of [null] throws a [TypeError]. *)
Definition null_property (name : string) : Js.Error :=
  {| Js.message :=
       "Cannot read properties of null (reading '" +:+ name +:+ "')" |}.

Definition updateProfessional (auth : Auth) (id : string)
  (professionalData : Row) : M (Sys Hook R) (option Row) :=
  finally
    (try_catch
       (setLoading true ;;
        match user auth with
        | None => throw unauthenticated
        | Some u =>
            console_log "Atualizando profissional:" ;;
            let* reply :=
              await exec
                {| table := "professionals"; verb := update professionalData;
                   filters := [f_eq "id" id; f_eq "user_id" (uid u)];
                   order := None; returning := true; single := true |} in
            match error reply with
            | Some e =>
                console_error "Erro do Supabase ao atualizar profissional:" ;;
                throw e
            | None =>
                console_log "Profissional atualizado com sucesso:" ;;
                match row_or_null (data reply) with
                | None => throw (null_property "nome")
                | Some d =>
                    toast
                      {| title := "Profissional atualizado com sucesso!";
                         description :=
                           "Os dados de " +:+ Js.to_string (d !! "nome")
                           +:+ " foram atualizados.";
                         variant := None |} ;;
                    ret (Some d)
                end
            end
        end)
       (fun error =>
          console_error "Erro ao atualizar profissional:" ;;
          toast
            {| title := "Erro ao atualizar profissional";
               description :=
                 Js.or_str (Js.message error)
                   "Não foi possível atualizar os dados do profissional";
               variant := Some "destructive" |} ;;
          ret None))
    (setLoading false).

Definition removed_toast : Toast :=
  {| title := "Profissional removido com sucesso";
     description := "O profissional foi removido do sistema.";
     variant := None |}.

Definition deleteProfessional (auth : Auth) (id : string)
  : M (Sys Hook R) bool :=
  finally
    (try_catch
       (setLoading true ;;
        match user auth with
        | None => throw unauthenticated
        | Some u =>
            console_log "Excluindo profissional:" ;;
            let* reply :=
              await exec
                {| table := "professionals"; verb := delete;
                   filters := [f_eq "id" id; f_eq "user_id" (uid u)];
                   order := None; returning := false; single := false |} in
            match error reply with
            | Some e =>
                console_error "Erro do Supabase ao excluir profissional:" ;;
                throw e
            | None =>
                console_log "Profissional excluído com sucesso" ;;
                toast removed_toast ;;
                ret true
            end
        end)
       (fun error =>
          console_error "Erro ao excluir profissional:" ;;
          toast
            {| title := "Erro ao remover profissional";
               description :=
                 Js.or_str (Js.message error)
                   "Não foi possível remover o profissional";
               variant := Some "destructive" |} ;;
          ret false))
    (setLoading false).

End WithClient.
End Professionals.

(** ** [useTodayAppointments]

    The repository holds two listings of this hook.  They send the same
    request and format the rows alike; the second one also writes to the
    console and resets its state when the user is signed out. *)

Module TodayAppointments.

Record TodayAppointment : Type := {
  id : option Js.Value;
  time : string;
  patient : string;
  doctor : string;
  type : string;
  status : string
}.

Record Hook : Type := {
  appointments : list TodayAppointment;
  loading : bool
}.

Definition initial : Hook := {| appointments := []; loading := true |}.

(** [new Date().toISOString().split('T')[0]] *)
Definition hoje_of (d : Z) : string :=
  Date.split_head "T" (Date.toISOString d).

(** The request both listings build, for user [u] and day string [hoje]. *)
Definition today_request (u : User) (hoje : string) : Request :=
  {| table := "appointments";
     verb :=
       select_embed
         [("patient", "patients", "nome");
          ("professional", "professionals", "nome")];
     filters :=
       [f_eq "user_id" (uid u);
        f_gte "data_agendamento" hoje;
        f_lt "data_agendamento" (hoje +:+ "T23:59:59")];
     order := Some "data_agendamento";
     returning := false; single := false |}.

Section WithClient.
Context {R : Type}.
Variable exec : Request -> R -> Settled * R.
(** [new Date(x).toLocaleTimeString('pt-BR', { hour: '2-digit',
    minute: '2-digit' })], a service of the host. *)
Variable toLocaleTimeString : option Js.Value -> string.

Definition setLoading (b : bool) : M (Sys Hook R) unit :=
  set_state (fun h => {| appointments := appointments h; loading := b |}).

Definition setAppointments (l : list TodayAppointment) : M (Sys Hook R) unit :=
  set_state (fun h => {| appointments := l; loading := loading h |}).

Definition format (apt : Joined) : TodayAppointment :=
  {| id := row apt !! "id";
     time := toLocaleTimeString (row apt !! "data_agendamento");
     patient :=
       Js.or_default (related apt !! "patient" ≫= (.!! "nome"))
         "Paciente não encontrado";
     doctor :=
       Js.or_default (related apt !! "professional" ≫= (.!! "nome"))
         "Profissional não encontrado";
     type := Js.or_default (row apt !! "tipo") "Consulta";
     status := Js.or_default (row apt !! "status") "confirmado" |}.

End WithClient.

(** *** First listing *)

Module First.
Section WithClient.
Context {R : Type}.
Variable exec : Request -> R -> Settled * R.
Variable toLocaleTimeString : option Js.Value -> string.

Definition loadTodayAppointments (auth : Auth) : M (Sys Hook R) unit :=
  match user auth with
  | None => ret tt
  | Some u =>
      if authLoading auth then ret tt
      else
        finally
          (try_catch
             (setLoading true ;;
              let* d := new_Date in
              let hoje := hoje_of d in
              let* reply := await exec (today_request u hoje) in
              match error reply with
              | Some e => throw e
              | None =>
                  let formattedAppointments :=
                    map (format toLocaleTimeString)
                      (joined_or_empty (data reply)) in
                  setAppointments formattedAppointments
              end)
             (fun error =>
                console_error "Erro ao carregar agendamentos de hoje:" ;;
                setAppointments []))
          (setLoading false)
  end.

(** The effect on [[user, authLoading]]. *)
Definition useEffect (auth : Auth) : M (Sys Hook R) unit :=
  match user auth with
  | Some _ =>
      if negb (authLoading auth) then loadTodayAppointments auth else ret tt
  | None => ret tt
  end.

End WithClient.
End First.

(** *** Second listing *)

Module Second.
Section WithClient.
Context {R : Type}.
Variable exec : Request -> R -> Settled * R.
Variable toLocaleTimeString : option Js.Value -> string.

Definition waiting : M (Sys Hook R) unit :=
  console_log "Aguardando autenticação para carregar agendamentos...".

Definition loadTodayAppointments (auth : Auth) : M (Sys Hook R) unit :=
  match user auth with
  | None => waiting
  | Some u =>
      if authLoading auth then waiting
      else
        finally
          (try_catch
             (setLoading true ;;
              console_log "Carregando agendamentos de hoje para usuário:" ;;
              let* d := new_Date in
              let hoje := hoje_of d in
              let* reply := await exec (today_request u hoje) in
              match error reply with
              | Some e =>
                  console_error "Erro ao buscar agendamentos:" ;;
                  throw e
              | None =>
                  let formattedAppointments :=
                    map (format toLocaleTimeString)
                      (joined_or_empty (data reply)) in
                  console_log "Agendamentos de hoje carregados:" ;;
                  setAppointments formattedAppointments
              end)
             (fun error =>
                console_error "Erro ao carregar agendamentos de hoje:" ;;
                setAppointments []))
          (setLoading false)
  end.

(** The effect on [[user, authLoading]]. *)
Definition useEffect (auth : Auth) : M (Sys Hook R) unit :=
  match user auth with
  | Some _ =>
      if negb (authLoading auth) then
        console_log "Iniciando carregamento de agendamentos de hoje..." ;;
        loadTodayAppointments auth
      else ret tt
  | None =>
      if negb (authLoading auth) then
        setLoading false ;;
        setAppointments []
      else ret tt
  end.

End WithClient.
End Second.
End TodayAppointments.

(** ** [useStats] *)

Module Stats.

Record DashboardStats : Type := {
  pacientesCadastrados : Z;
  agendamentosHoje : Z;
  consultasMes : Z;
  taxaOcupacao : Z;
  limitePacientes : Z;
  limiteAgendamentos : Z;
  limiteConsultas : Z
}.

Record Hook : Type := { stats : DashboardStats; loading : bool }.

Definition initial : Hook :=
  {| stats :=
       {| pacientesCadastrados := 0; agendamentosHoje := 0; consultasMes := 0;
          taxaOcupacao := 0; limitePacientes := 50; limiteAgendamentos := 10;
          limiteConsultas := 100 |};
     loading := true |}.

Definition count_request (t : string) (fs : list Filter) : Request :=
  {| table := t; verb := select_count; filters := fs; order := None;
     returning := false; single := false |}.

Definition patients_request (u : User) : Request :=
  count_request "patients" [f_eq "user_id" (uid u)].

Definition appointments_request (u : User) (hoje : string) : Request :=
  count_request "appointments"
    [f_eq "user_id" (uid u);
     f_gte "data_agendamento" hoje;
     f_lt "data_agendamento" (hoje +:+ "T23:59:59")].

Definition consultations_request (u : User) (inicioMes : Z) : Request :=
  count_request "consultations"
    [f_eq "user_id" (uid u);
     f_gte "created_at" (Date.toISOString inicioMes)].

(** [agendamentosCount ? Math.round((agendamentosCount / 10) * 100) : 0].
    The arithmetic is exact here; in double precision the product is
    within half a unit of [10 * n] for every count below [2^50], so the
    rounded result is the same. *)
Definition occupancy (agendamentosCount : option Z) : Z :=
  if Js.truthy_count agendamentosCount
  then Js.Math_round ((inject_Z (Js.or_zero agendamentosCount) / 10) * 100)%Q
  else 0.

Section WithClient.
Context {R : Type}.
Variable exec : Request -> R -> Settled * R.

Definition setLoading (b : bool) : M (Sys Hook R) unit :=
  set_state (fun h => {| stats := stats h; loading := b |}).

Definition setStats (st : DashboardStats) : M (Sys Hook R) unit :=
  set_state (fun h => {| stats := st; loading := loading h |}).

Definition loadStats (auth : Auth) : M (Sys Hook R) unit :=
  match user auth with
  | None => ret tt
  | Some u =>
      if authLoading auth then ret tt
      else
        finally
          (try_catch
             (setLoading true ;;
              let* r1 := await exec (patients_request u) in
              let pacientesCount := count r1 in
              let* d := new_Date in
              let hoje := Date.split_head "T" (Date.toISOString d) in
              let* r2 := await exec (appointments_request u hoje) in
              let agendamentosCount := count r2 in
              let* d' := new_Date in
              let* zone := time_zone in
              let inicioMes := Date.setDate zone 1 d' in
              let* r3 := await exec (consultations_request u inicioMes) in
              let consultasCount := count r3 in
              let taxaOcupacao := occupancy agendamentosCount in
              setStats
                {| pacientesCadastrados := Js.or_zero pacientesCount;
                   agendamentosHoje := Js.or_zero agendamentosCount;
                   consultasMes := Js.or_zero consultasCount;
                   taxaOcupacao := Js.Math_min taxaOcupacao 100;
                   limitePacientes := 50;
                   limiteAgendamentos := 10;
                   limiteConsultas := 100 |})
             (fun error => console_error "Erro ao carregar estatísticas:"))
          (setLoading false)
  end.

(** The effect on [[user, authLoading]]. *)
Definition useEffect (auth : Auth) : M (Sys Hook R) unit :=
  match user auth with
  | Some _ => if negb (authLoading auth) then loadStats auth else ret tt
  | None => ret tt
  end.

End WithClient.
End Stats.

(** ** A model of the remote store

    The hosted database and its client are not part of the repository.
    The hooks above are written against any [exec]; for the properties
    that depend on which rows a request selects, the store is modelled
    here from the specification. *)

Module Store.

Inductive Fault : Type :=
| healthy
| fails (e : Js.Error)      (** the reply carries [error], [data] and
                                [count] are [null] *)
| rejects (e : Js.Error).   (** the awaited promise is rejected *)

(** Modelled from the spec: the remote data store, "a query interface
    over named collections supporting equality/range filters, ordering,
    related-row expansion, exact counts, and single-row assertions" that
    "returns [{data, error}] or [{count, error}]".  [pending] schedules
    the faults of the coming requests, one per request, none once the
    list is exhausted; [serial] numbers the generated ids. *)
Record Remote : Type := {
  tables : gmap string (list Row);
  pending : list Fault;
  serial : nat
}.

Definition from (t : string) (db : gmap string (list Row)) : list Row :=
  default [] (db !! t).

(** Modelled from the spec: the range filters compare the stored text
    with the literal in lexicographic order ("assumes the literal string
    comparison is lexicographically valid for the stored timestamp
    format"). *)
Definition holds (f : Filter) (r : Row) : bool :=
  match f with
  | f_eq c v => bool_decide (r !! c = Some (Js.Str v))
  | f_gte c v =>
      match r !! c with
      | Some (Js.Str s) => String.leb v s
      | _ => false
      end
  | f_lt c v =>
      match r !! c with
      | Some (Js.Str s) => String.ltb s v
      | _ => false
      end
  end.

Definition selected (fs : list Filter) (r : Row) : bool :=
  forallb (fun f => holds f r) fs.

Definition text (c : string) (r : Row) : string :=
  match r !! c with
  | Some (Js.Str s) => s
  | _ => ""
  end.

Fixpoint insert_by (c : string) (r : Row) (l : list Row) : list Row :=
  match l with
  | [] => [r]
  | x :: l' =>
      if String.leb (text c r) (text c x) then r :: x :: l'
      else x :: insert_by c r l'
  end.

Definition sort_by (c : string) (l : list Row) : list Row :=
  foldr (insert_by c) [] l.

Definition ordered (o : option string) (l : list Row) : list Row :=
  match o with
  | Some c => sort_by c l
  | None => l
  end.

(** Modelled from the spec: "related-row expansion" of [alias:table(column)]
    follows the foreign key [alias_id] to the row of [table] with that
    [id] and keeps its [column]. *)
Definition expand (db : gmap string (list Row)) (r : Row)
  (rel : string * string * string) : option (string * Row) :=
  let '(alias, t, c) := rel in
  match r !! (alias +:+ "_id") with
  | Some key =>
      match List.find (fun x => bool_decide (x !! "id" = Some key)) (from t db) with
      | Some x =>
          Some (alias,
                match x !! c with
                | Some v => {[ c := v ]}
                | None => ∅
                end)
      | None => None
      end
  | None => None
  end.

Definition embed (db : gmap string (list Row))
  (rels : list (string * string * string)) (r : Row) : Joined :=
  {| row := r; related := list_to_map (omap (expand db r) rels) |}.

Definition no_rows : Js.Error :=
  {| Js.message := "JSON object requested, multiple (or no) rows returned" |}.

(** [.single()] on the rows a request yields. *)
Definition shape (one_row : bool) (l : list Row) : Reply :=
  if one_row then
    match l with
    | [r] => {| data := one r; error := None; count := None |}
    | _ => {| data := no_data; error := Some no_rows; count := None |}
    end
  else {| data := rows l; error := None; count := None |}.

Definition written (q : Request) (l : list Row) : Reply :=
  if returning q then shape (single q) l
  else {| data := no_data; error := None; count := None |}.

Definition with_id (n : nat) (r : Row) : Row :=
  match r !! "id" with
  | Some _ => r
  | None => <["id" := Js.Str ("gen-" +:+ pretty n)]> r
  end.

Definition number (n : nat) (l : list Row) : list Row :=
  imap (fun i r => with_id (n + i) r) l.

(** Modelled from the spec: what the store does with a request that it
    serves.  A select returns the rows that pass every filter, ordered
    if asked; an exact count returns their number; an insert adds the
    rows, an update patches the rows that pass the filters and a delete
    removes them, each returning the rows written when [.select()]
    follows; [.single()] reports an error unless exactly one row is
    returned.  Deleting or updating no row is not an error. *)
Definition run (q : Request) (db : gmap string (list Row)) (n : nat)
  : Reply * gmap string (list Row) * nat :=
  let t := from (table q) db in
  match verb q with
  | select_all =>
      (shape (single q) (ordered (order q) (List.filter (selected (filters q)) t)),
       db, n)
  | select_count =>
      ({| data := no_data; error := None;
          count := Some (Z.of_nat (length (List.filter (selected (filters q)) t))) |},
       db, n)
  | select_embed rels =>
      ({| data :=
            joined
              (map (embed db rels)
                 (ordered (order q) (List.filter (selected (filters q)) t)));
          error := None; count := None |},
       db, n)
  | insert values =>
      let fresh := number n values in
      (written q fresh, <[table q := t ++ fresh]> db, (n + length values)%nat)
  | update patch =>
      let change := fun r => if selected (filters q) r then patch ∪ r else r in
      (written q (map (fun r => patch ∪ r) (List.filter (selected (filters q)) t)),
       <[table q := map change t]> db, n)
  | delete =>
      (written q (List.filter (selected (filters q)) t),
       <[table q := List.filter (fun r => negb (selected (filters q) r)) t]> db, n)
  end.

(** Modelled from the spec: awaiting a request against the store, with
    the fault scheduled for it, if any. *)
Definition exec (q : Request) (rm : Remote) : Settled * Remote :=
  match pending rm with
  | fails e :: rest =>
      (Fulfilled {| data := no_data; error := Some e; count := None |},
       {| tables := tables rm; pending := rest; serial := serial rm |})
  | rejects e :: rest =>
      (Rejected e,
       {| tables := tables rm; pending := rest; serial := serial rm |})
  | rest =>
      let '(reply, db, n) := run q (tables rm) (serial rm) in
      (Fulfilled reply, {| tables := db; pending := tail rest; serial := n |})
  end.

(** No fault is scheduled for the next request. *)
Definition available (rm : Remote) : Prop :=
  match pending rm with
  | fails _ :: _ | rejects _ :: _ => False
  | _ => True
  end.

End Store.

(** ** Observing a run *)

Definition result {S A : Type} (m : M S A) (s : S) : Outcome A := fst (m s).

Definition after {S A : Type} (m : M S A) (s : S) : S := snd (m s).

(** The events a run added to the trace of [s], given the state [s'] it
    ended in. *)
Definition news {H R : Type} (s s' : Sys H R) : list Event :=
  drop (length (trace s)) (trace s').

Definition no_request (evs : list Event) : Prop :=
  List.filter is_request evs = [].

Definition no_write (evs : list Event) : Prop :=
  List.filter is_write evs = [].

Definition no_toast (evs : list Event) : Prop :=
  List.filter is_toast evs = [].

(** ** The two listings of [useTodayAppointments], by name *)

Inductive Listing : Type := first_listing | second_listing.

Definition loadTodayAppointments_of {R : Type} (l : Listing)
  (exec : Request -> R -> Settled * R)
  (toLocaleTimeString : option Js.Value -> string) (auth : Auth)
  : M (Sys TodayAppointments.Hook R) unit :=
  match l with
  | first_listing =>
      TodayAppointments.First.loadTodayAppointments exec toLocaleTimeString auth
  | second_listing =>
      TodayAppointments.Second.loadTodayAppointments exec toLocaleTimeString auth
  end.

(** ** Sample worlds *)

Module Sample.

Definition ana : User := {| uid := "u1" |}.

Definition signed_in : Auth := {| user := Some ana; authLoading := false |}.
Definition signed_out : Auth := {| user := None; authLoading := false |}.
Definition resolving : Auth := {| user := None; authLoading := true |}.

Definition professional (i n owner : string) : Row :=
  {[ "id" := Js.Str i; "nome" := Js.Str n; "tipo" := Js.Str "medico";
     "user_id" := Js.Str owner ]}.

Definition clinic : gmap string (list Row) :=
  {[ "professionals" :=
       [professional "p1" "Zelia" "u1"; professional "p2" "Abel" "u1";
        professional "p3" "Bruno" "u2"] ]}.

Definition store (db : gmap string (list Row)) (faults : list Store.Fault)
  : Store.Remote :=
  {| Store.tables := db; Store.pending := faults; Store.serial := 0 |}.

(** 2024-03-15T15:30:00.123Z *)
Definition afternoon : Z := 1710516600123.

Definition world {H : Type} (h : H) (rm : Store.Remote) (t zone : Z)
  : Sys H Store.Remote :=
  {| hook := h; remote := rm; now := t; tz := Date.fixed zone; trace := [] |}.

Definition staff : Sys Professionals.Hook Store.Remote :=
  world Professionals.initial (store clinic []) afternoon 0.

(** The host's clock formatting is not modelled: the samples show the
    stored text as it is. *)
Definition shown (v : option Js.Value) : string := Js.to_string v.

End Sample.

Module SampleToday.

Definition seen : list TodayAppointments.TodayAppointment :=
  [{| TodayAppointments.id := Some (Js.Str "a1");
      TodayAppointments.time := "09:00";
      TodayAppointments.patient := "Carla";
      TodayAppointments.doctor := "Abel";
      TodayAppointments.type := "Consulta";
      TodayAppointments.status := "confirmado" |}].

(** A hook that shows one appointment, its loading flag raised. *)
Definition showing : Sys TodayAppointments.Hook Store.Remote :=
  Sample.world
    {| TodayAppointments.appointments := seen;
       TodayAppointments.loading := true |}
    (Sample.store Sample.clinic []) Sample.afternoon 0.

(** A hook that has just been mounted. *)
Definition mounted : Sys TodayAppointments.Hook Store.Remote :=
  Sample.world TodayAppointments.initial (Sample.store Sample.clinic [])
    Sample.afternoon 0.

End SampleToday.

Module SampleStats.

(** A stats hook that has just been mounted. *)
Definition mounted : Sys Stats.Hook Store.Remote :=
  Sample.world Stats.initial (Sample.store Sample.clinic []) Sample.afternoon 0.

End SampleStats.

Module SampleStatsData.

Definition outage : Js.Error := {| Js.message := "connection refused" |}.

Definition earlier : Stats.DashboardStats :=
  {| Stats.pacientesCadastrados := 12; Stats.agendamentosHoje := 3;
     Stats.consultasMes := 40; Stats.taxaOcupacao := 30;
     Stats.limitePacientes := 50; Stats.limiteAgendamentos := 10;
     Stats.limiteConsultas := 100 |}.

(** A stats hook showing [earlier], in front of a store whose next three
    replies carry an error. *)
Definition failing : Sys Stats.Hook Store.Remote :=
  Sample.world {| Stats.stats := earlier; Stats.loading := false |}
    (Sample.store Sample.clinic
       [Store.fails outage; Store.fails outage; Store.fails outage])
    Sample.afternoon 0.

(** The same hook in front of a client that rejects the first promise. *)
Definition rejecting : Sys Stats.Hook Store.Remote :=
  Sample.world {| Stats.stats := earlier; Stats.loading := false |}
    (Sample.store Sample.clinic [Store.rejects outage])
    Sample.afternoon 0.

Definition consultation (i created owner : string) : Row :=
  {[ "id" := Js.Str i; "created_at" := Js.Str created;
     "user_id" := Js.Str owner ]}.

Definition appointment (i scheduled owner : string) : Row :=
  {[ "id" := Js.Str i; "data_agendamento" := Js.Str scheduled;
     "user_id" := Js.Str owner ]}.

(** Two consultations of March 2024, one in the morning of the 1st, and
    one of February; fifteen appointments on 2024-03-15. *)
Definition march : gmap string (list Row) :=
  {[ "consultations" :=
       [consultation "c1" "2024-03-01T08:00:00.000Z" "u1";
        consultation "c2" "2024-03-10T09:00:00.000Z" "u1";
        consultation "c0" "2024-02-28T09:00:00.000Z" "u1"];
     "appointments" :=
       map (fun k => appointment ("a" +:+ pretty k)
                       ("2024-03-15T" +:+ Date.pad 2 (Z.of_nat k) +:+ ":00:00")
                       "u1")
         (seq 8 15) ]}.

(** Mounted on 2024-03-15 at 15:30:00.123 UTC, the host in UTC. *)
Definition mid_march : Sys Stats.Hook Store.Remote :=
  Sample.world Stats.initial (Sample.store march []) Sample.afternoon 0.

End SampleStatsData.

Module SampleEvening.

(** 2024-03-16T01:30:00.123Z, which is 22:30 of 2024-03-15 in a zone
    three hours west of Greenwich. *)
Definition late : Z := 1710552600123.

Definition brasilia : Z := -180.

Definition agenda : gmap string (list Row) :=
  {[ "appointments" :=
       [SampleStatsData.appointment "a1" "2024-03-15T23:00:00" "u1";
        SampleStatsData.appointment "a2" "2024-03-16T09:00:00" "u1"] ]}.

Definition mounted : Sys TodayAppointments.Hook Store.Remote :=
  Sample.world TodayAppointments.initial (Sample.store agenda []) late brasilia.

End SampleEvening.

(** The appointment with id [i] is among those the hook holds. *)
Definition listed (i : string) (h : TodayAppointments.Hook) : Prop :=
  In (Some (Js.Str i))
    (map TodayAppointments.id (TodayAppointments.appointments h)).

Module SampleWindow.

(** Appointments at the edges of 2024-03-15. *)
Definition first_second : Row :=
  SampleStatsData.appointment "a0" "2024-03-15T00:00:00" "u1".
Definition last_second : Row :=
  SampleStatsData.appointment "a1" "2024-03-15T23:59:59" "u1".
Definition next_morning : Row :=
  SampleStatsData.appointment "a2" "2024-03-16T08:00:00" "u1".

Definition agenda : gmap string (list Row) :=
  {[ "appointments" := [next_morning; last_second; first_second] ]}.

Definition mounted : Sys TodayAppointments.Hook Store.Remote :=
  Sample.world TodayAppointments.initial (Sample.store agenda [])
    Sample.afternoon 0.

End SampleWindow.

(** ** Reading back an update

    What the specification says of [update(id, {field: v})] followed by
    [getById(id)], for a user [auth] in front of the modelled store: if
    the update succeeds, the record read back holds [v] in [field] and,
    in the other fields, what the record read before the update held. *)
Definition update_reflects (auth : Auth)
  (s : Sys Professionals.Hook Store.Remote) (id field : string)
  (v : Js.Value) : Prop :=
  forall d : Row,
    result (Professionals.updateProfessional Store.exec auth id {[ field := v ]}) s
    = Return (Some d) ->
    exists r0 r1 : Row,
      result (Professionals.getProfessionalById Store.exec auth id) s
      = Return (Some r0) /\
      result (Professionals.getProfessionalById Store.exec auth id)
        (after
           (Professionals.updateProfessional Store.exec auth id {[ field := v ]})
           s)
      = Return (Some r1) /\
      r1 !! field = Some v /\
      (forall g : string, g <> field -> r1 !! g = r0 !! g).

(** ** Further observations *)

(** The notifications a run raised, oldest first. *)
Definition toasts {H R : Type} (s s' : Sys H R) : list Toast :=
  omap (fun e => match e with Toasted t => Some t | _ => None end) (news s s').

(** The requests a run sent, oldest first. *)
Definition requests {H R : Type} (s s' : Sys H R) : list Request :=
  omap (fun e => match e with Sent q => Some q | _ => None end) (news s s').

Definition destructive (t : Toast) : bool :=
  bool_decide (variant t = Some "destructive").

(** The client answers a failure with error [e] to whatever is asked of
    the remote [rm]: a reply that carries [e], or a rejected promise. *)
Definition failing_with {R : Type} (exec : Request -> R -> Settled * R)
  (rm : R) (e : Js.Error) : Prop :=
  forall q : Request,
    exists r' : R,
      exec q rm = (Rejected e, r') \/
      exists reply : Reply,
        exec q rm = (Fulfilled reply, r') /\ error reply = Some e.

Definition error_toast (heading fallback : string) (e : Js.Error) : Toast :=
  {| title := heading;
     description := Js.or_str (Js.message e) fallback;
     variant := Some "destructive" |}.

Module SampleFaults.

(** The staff world in front of a store whose next reply carries
    [SampleStatsData.outage]. *)
Definition down : Sys Professionals.Hook Store.Remote :=
  Sample.world Professionals.initial
    (Sample.store Sample.clinic [Store.fails SampleStatsData.outage])
    Sample.afternoon 0.

(** A user is known while authentication is still loading. *)
Definition reloading : Auth := {| user := Some Sample.ana; authLoading := true |}.

End SampleFaults.

(** The filters by which the adapter addresses one professional. *)
Definition by_id_and_owner (id : string) (u : User) : list Filter :=
  [f_eq "id" id; f_eq "user_id" (uid u)].

(** Ascending order of a text column. *)
Definition ascending (c : string) (a b : Row) : Prop :=
  String.leb (Store.text c a) (Store.text c b) = true.

(** The rows of the professionals table of a system. *)
Definition professionals_of (s : Sys Professionals.Hook Store.Remote)
  : list Row :=
  Store.from "professionals" (Store.tables (remote s)).

(** The id the store gives to the next row inserted without one. *)
Definition next_id (s : Sys Professionals.Hook Store.Remote) : string :=
  "gen-" +:+ pretty (Store.serial (remote s)).

(** The row matches neither the id nor the caller. *)
Definition elsewhere (id : string) (u : User) (r : Row) : Prop :=
  r !! "id" <> Some (Js.Str id) \/ r !! "user_id" <> Some (Js.Str (uid u)).

Module SampleTodayFaults.

(** A hook that shows one appointment, in front of a store whose next
    reply carries an error. *)
Definition down : Sys TodayAppointments.Hook Store.Remote :=
  Sample.world
    {| TodayAppointments.appointments := SampleToday.seen;
       TodayAppointments.loading := false |}
    (Sample.store Sample.clinic [Store.fails SampleStatsData.outage])
    Sample.afternoon 0.

End SampleTodayFaults.

(** The appointment row points to no row of the related table [t]
    through its foreign key [alias_id]. *)
Definition unrelated (db : gmap string (list Row)) (alias t : string)
  (r : Row) : Prop :=
  match r !! (alias +:+ "_id") with
  | None => True
  | Some key => forall x : Row, In x (Store.from t db) -> x !! "id" <> Some key
  end.

Module SampleOrphan.

(** An appointment of this morning whose patient is not on file. *)
Definition orphan : Row :=
  {[ "id" := Js.Str "a7"; "data_agendamento" := Js.Str "2024-03-15T10:00:00";
     "user_id" := Js.Str "u1"; "patient_id" := Js.Str "x9" ]}.

Definition agenda : gmap string (list Row) :=
  {[ "appointments" := [orphan];
     "patients" := [ {[ "id" := Js.Str "x1"; "nome" := Js.Str "Carla" ]} ] ]}.

Definition mounted : Sys TodayAppointments.Hook Store.Remote :=
  Sample.world TodayAppointments.initial (Sample.store agenda [])
    Sample.afternoon 0.

End SampleOrphan.

Module SampleYesterday.

Definition stale : Row :=
  SampleStatsData.appointment "a9" "2024-03-14T10:00:00" "u1".

Definition agenda : gmap string (list Row) := {[ "appointments" := [stale] ]}.

Definition mounted : Sys TodayAppointments.Hook Store.Remote :=
  Sample.world TodayAppointments.initial (Sample.store agenda [])
    Sample.afternoon 0.

End SampleYesterday.

(** The plan limits are the fixed ones and the occupancy rate is at most
    100. *)
Definition within_plan (st : Stats.DashboardStats) : Prop :=
  Stats.limitePacientes st = 50 /\
  Stats.limiteAgendamentos st = 10 /\
  Stats.limiteConsultas st = 100 /\
  Stats.taxaOcupacao st <= 100.

(** The three requests of a refresh of the statistics, in their order. *)
Definition stats_requests (u : User) (t : Z) (zone : Date.Zone)
  : list Request :=
  [Stats.patients_request u;
   Stats.appointments_request u (Date.split_head "T" (Date.toISOString t));
   Stats.consultations_request u (Date.setDate zone 1 t)].

Definition owned_by (u : User) (r : Row) : bool :=
  bool_decide (r !! "user_id" = Some (Js.Str (uid u))).

Module SampleBoth.

(** The appointments hook in front of the store of
    [SampleStatsData.mid_march], at the same instant. *)
Definition today : Sys TodayAppointments.Hook Store.Remote :=
  Sample.world TodayAppointments.initial
    (Sample.store SampleStatsData.march []) Sample.afternoon 0.

End SampleBoth.

(** A request is scoped to the user [u]: it filters on the user's id, or
    it inserts rows that all carry the user's id. *)
Definition scoped (u : User) (q : Request) : Prop :=
  In (f_eq "user_id" (uid u)) (filters q) \/
  exists values : list Row,
    verb q = insert values /\
    Forall (fun r : Row => r !! "user_id" = Some (Js.Str (uid u))) values.

(** ** The window of today, as the specification words it

    Today is the calendar date of the caller, in the host's time zone at
    the instant [t] of the refresh, and the next day is the calendar day
    that follows it.  For the appointment [i] scheduled at [ts] and the
    state [h'] the hook ends in: scheduled today at 00:00:00 it is
    listed, scheduled today at 23:59:59 it is not, scheduled on the next
    day it is not (from 1970 on, within the years of four digits). *)
Definition half_open_window (zone : Date.Zone) (t : Z)
  (h' : TodayAppointments.Hook) (i ts : string) : Prop :=
  let day := Date.localTime zone t / Date.msPerDay in
  let today := Date.localDateString zone t in
  let tomorrow := Date.isoDate (Date.civil_of_day (day + 1)) in
  (forall sfx : string, ts = today +:+ "T00:00:00" +:+ sfx -> listed i h') /\
  (forall sfx : string, ts = today +:+ "T23:59:59" +:+ sfx -> ~ listed i h') /\
  (forall rest : string,
      0 <= Date.localTime zone t ->
      Date.year (Date.civil_of_day (day + 1)) <= 9999 ->
      ts = tomorrow +:+ rest -> ~ listed i h').

Module SampleEveningWindow.

(** At 22:30 of 2024-03-15 three hours west of Greenwich: an appointment
    at the first second of that day and one of the next morning. *)
Definition first_second : Row :=
  SampleStatsData.appointment "e0" "2024-03-15T00:00:00" "u1".
Definition next_morning : Row :=
  SampleStatsData.appointment "e1" "2024-03-16T09:00:00" "u1".

Definition agenda : gmap string (list Row) :=
  {[ "appointments" := [first_second; next_morning] ]}.

Definition mounted : Sys TodayAppointments.Hook Store.Remote :=
  Sample.world TodayAppointments.initial (Sample.store agenda [])
    SampleEvening.late SampleEvening.brasilia.

End SampleEveningWindow.

(** ** The requests of a refresh of the statistics, one after the other

    The requests of [qs] that are sent when each is awaited in turn and
    the first rejected promise ends the run, with whether a promise was
    rejected. *)
Fixpoint sent_until_rejection {R : Type} (exec : Request -> R -> Settled * R)
  (rm : R) (qs : list Request) : list Request * bool :=
  match qs with
  | [] => ([], false)
  | q :: qs' =>
      match exec q rm with
      | (Rejected _, _) => ([q], true)
      | (Fulfilled _, rm') =>
          let '(sent, rejected) := sent_until_rejection exec rm' qs' in
          (q :: sent, rejected)
      end
  end.

Module SampleZone.

(** A zone five hours west of Greenwich that moves to four hours west on
    2024-03-10 at 02:00 local time (07:00 UTC). *)
Definition eastern : Date.Zone :=
  {| Date.offset_at :=
       fun t => if t <? 1710054000000 then -18000000 else -14400000;
     Date.offset_of_local :=
       fun lt => if lt <? 1710036000000 then -18000000 else -14400000 |}.

End SampleZone.

(** * Properties *)

(** ** The calendar on samples *)

Example toISOString_sample :
  Date.toISOString 1710516600123 = "2024-03-15T15:30:00.123Z".
Proof. vm_compute. reflexivity. Qed.

Example toISOString_before_epoch :
  Date.toISOString (-1) = "1969-12-31T23:59:59.999Z".
Proof. vm_compute. reflexivity. Qed.

Example setDate_sample :
  Date.toISOString (Date.setDate (Date.fixed 0) 1 1710516600123)
  = "2024-03-01T15:30:00.123Z".
Proof. vm_compute. reflexivity. Qed.

(** Across a change of offset the local time of day is kept, not the
    time of day in UTC: 11:30 on the 15th (UTC-4) becomes 11:30 on the
    1st (UTC-5). *)
Example setDate_across_daylight_saving :
  Date.toISOString (Date.setDate SampleZone.eastern 1 1710516600123)
  = "2024-03-01T16:30:00.123Z".
Proof. vm_compute. reflexivity. Qed.

Lemma news_app {H R : Type} (s s' : Sys H R) (evs : list Event) :
  trace s' = trace s ++ evs -> news s s' = evs.
Proof.
  intros E. unfold news. rewrite E. apply drop_app_length.
Qed.

Lemma news_refl {H R : Type} (s s' : Sys H R) :
  trace s' = trace s -> news s s' = [].
Proof.
  intros E. apply news_app. rewrite E. symmetry. apply app_nil_r.
Qed.

Lemma no_request_no_write (evs : list Event) : no_request evs -> no_write evs.
Proof.
  unfold no_request, no_write. induction evs as [|e evs IH]; [reflexivity|].
  destruct e as [q| | |]; simpl; try exact IH. discriminate.
Qed.

(** Unfolds the monad so that a run computes. *)
Ltac run :=
  unfold result, after, finally, try_catch, bind, ret, throw, await,
    console_log, console_error, toast, emit, set_state, new_Date, time_zone;
  cbn [fst snd hook remote now tz trace].

Ltac news_of_trace :=
  match goal with
  | |- context [news ?s ?s'] =>
      first
        [ rewrite (news_refl s s') by reflexivity
        | rewrite (news_app s s' _)
            by (cbn [trace]; rewrite <- ?app_assoc; reflexivity) ]
  end.

(** ** The professionals adapter without a user *)

Section Unauthenticated.
Context {R : Type}.
Variable exec : Request -> R -> Settled * R.
Variable auth : Auth.
Hypothesis signed_out : user auth = None.
Variable s : Sys Professionals.Hook R.

Lemma getProfessionals_signed_out :
  result (Professionals.getProfessionals exec auth) s = Return [] /\
  remote (after (Professionals.getProfessionals exec auth) s) = remote s /\
  no_request (news s (after (Professionals.getProfessionals exec auth) s)) /\
  no_toast (news s (after (Professionals.getProfessionals exec auth) s)).
Proof.
  unfold Professionals.getProfessionals, Professionals.setLoading.
  rewrite signed_out. destruct (authLoading auth); run;
    repeat split; try news_of_trace; reflexivity.
Qed.

Lemma getProfessionalById_signed_out (id : string) :
  result (Professionals.getProfessionalById exec auth id) s = Return None /\
  remote (after (Professionals.getProfessionalById exec auth id) s) = remote s /\
  no_request (news s (after (Professionals.getProfessionalById exec auth id) s)).
Proof.
  unfold Professionals.getProfessionalById, Professionals.setLoading.
  rewrite signed_out. run. repeat split; try news_of_trace; reflexivity.
Qed.

Lemma createProfessional_signed_out (professionalData : Row) :
  result (Professionals.createProfessional exec auth professionalData) s
  = Return None /\
  remote (after (Professionals.createProfessional exec auth professionalData) s)
  = remote s /\
  no_request
    (news s (after (Professionals.createProfessional exec auth professionalData) s)).
Proof.
  unfold Professionals.createProfessional, Professionals.setLoading.
  rewrite signed_out. run. repeat split; try news_of_trace; reflexivity.
Qed.

Lemma updateProfessional_signed_out (id : string) (professionalData : Row) :
  result (Professionals.updateProfessional exec auth id professionalData) s
  = Return None /\
  remote (after (Professionals.updateProfessional exec auth id professionalData) s)
  = remote s /\
  no_request
    (news s (after (Professionals.updateProfessional exec auth id professionalData) s)).
Proof.
  unfold Professionals.updateProfessional, Professionals.setLoading.
  rewrite signed_out. run. repeat split; try news_of_trace; reflexivity.
Qed.

Lemma deleteProfessional_signed_out (id : string) :
  result (Professionals.deleteProfessional exec auth id) s = Return false /\
  remote (after (Professionals.deleteProfessional exec auth id) s) = remote s /\
  no_request (news s (after (Professionals.deleteProfessional exec auth id) s)).
Proof.
  unfold Professionals.deleteProfessional, Professionals.setLoading.
  rewrite signed_out. run. repeat split; try news_of_trace; reflexivity.
Qed.

End Unauthenticated.

(** C5. Without an authenticated user every operation of the
    professionals adapter gives its empty answer ([list] the empty
    sequence, [getById], [create] and [update] null, [delete] false) and
    sends nothing to the remote store: the store is as it was and no
    request, hence no insert, update or delete, was issued. *)
Theorem unauthenticated_operations_send_nothing :
  forall (R : Type) (exec : Request -> R -> Settled * R) (auth : Auth)
         (s : Sys Professionals.Hook R) (id : string) (professionalData : Row),
    user auth = None ->
    (result (Professionals.getProfessionals exec auth) s = Return [] /\
     result (Professionals.getProfessionalById exec auth id) s = Return None /\
     result (Professionals.createProfessional exec auth professionalData) s
     = Return None /\
     result (Professionals.updateProfessional exec auth id professionalData) s
     = Return None /\
     result (Professionals.deleteProfessional exec auth id) s = Return false) /\
    (forall s' : Sys Professionals.Hook R,
        In s'
          [after (Professionals.getProfessionals exec auth) s;
           after (Professionals.getProfessionalById exec auth id) s;
           after (Professionals.createProfessional exec auth professionalData) s;
           after (Professionals.updateProfessional exec auth id professionalData) s;
           after (Professionals.deleteProfessional exec auth id) s] ->
        remote s' = remote s /\ no_request (news s s') /\ no_write (news s s')).
Proof.
  intros R exec auth s id professionalData Hout.
  destruct (getProfessionals_signed_out exec auth Hout s) as (L1 & L2 & L3 & _).
  destruct (getProfessionalById_signed_out exec auth Hout s id) as (G1 & G2 & G3).
  destruct (createProfessional_signed_out exec auth Hout s professionalData)
    as (C1 & C2 & C3).
  destruct (updateProfessional_signed_out exec auth Hout s id professionalData)
    as (U1 & U2 & U3).
  destruct (deleteProfessional_signed_out exec auth Hout s id) as (D1 & D2 & D3).
  split; [repeat split; assumption|].
  intros s' Hin. simpl in Hin.
  destruct Hin as [<-|[<-|[<-|[<-|[<-|[]]]]]];
    repeat split; auto using no_request_no_write.
Qed.

Lemma unauthenticated_operations_send_nothing_witness :
  result (Professionals.deleteProfessional Store.exec Sample.signed_out "p1")
    Sample.staff = Return false /\
  Store.tables
    (remote
       (after (Professionals.deleteProfessional Store.exec Sample.signed_out "p1")
          Sample.staff))
  = Sample.clinic.
Proof.
  destruct
    (unauthenticated_operations_send_nothing Store.Remote Store.exec
       Sample.signed_out Sample.staff "p1" ∅ eq_refl)
    as [(_ & _ & _ & _ & D) Q].
  split; [exact D|].
  destruct
    (Q (after (Professionals.deleteProfessional Store.exec Sample.signed_out "p1")
          Sample.staff)) as (E & _).
  - simpl. tauto.
  - rewrite E. reflexivity.
Defined.

(** ** Deleting a professional *)

Lemma delete_of_absent_row (db : gmap string (list Row)) (n : nat) (q : Request) :
  verb q = delete -> returning q = false ->
  List.filter (Store.selected (filters q)) (Store.from (table q) db) = [] ->
  exists db',
    Store.run q db n = ({| data := no_data; error := None; count := None |}, db', n) /\
    Store.from (table q) db' = Store.from (table q) db.
Proof.
  intros Hv Hr Hnone. unfold Store.run, Store.written. rewrite Hv, Hr.
  eexists. split; [reflexivity|].
  unfold Store.from at 1. rewrite lookup_insert_eq. simpl.
  set (t := Store.from (table q) db) in *.
  clearbody t. induction t as [|r t IH]; [reflexivity|].
  simpl in *. destruct (Store.selected (filters q) r); [discriminate|].
  simpl. f_equal. apply IH. exact Hnone.
Qed.

(** C9. When the remote reports no error for the delete request, the
    operation returns true and raises the success notification; nothing
    is asked about how many rows the request matched, so deleting a
    professional that does not exist reads as a successful deletion. *)
Theorem delete_without_error_reports_success :
  forall (R : Type) (exec : Request -> R -> Settled * R) (auth : Auth)
         (u : User) (id : string) (s : Sys Professionals.Hook R)
         (reply : Reply) (r' : R),
    user auth = Some u ->
    exec
      {| table := "professionals"; verb := delete;
         filters := [f_eq "id" id; f_eq "user_id" (uid u)];
         order := None; returning := false; single := false |}
      (remote s) = (Fulfilled reply, r') ->
    error reply = None ->
    result (Professionals.deleteProfessional exec auth id) s = Return true /\
    List.filter is_toast
      (news s (after (Professionals.deleteProfessional exec auth id) s))
    = [Toasted Professionals.removed_toast].
Proof.
  intros R exec auth u id s reply r' Hu Hexec Herr.
  unfold Professionals.deleteProfessional, Professionals.setLoading.
  rewrite Hu. run. rewrite Hexec. cbn. rewrite Herr. cbn.
  split; [reflexivity|]. news_of_trace. reflexivity.
Qed.

Lemma delete_without_error_reports_success_witness :
  result (Professionals.deleteProfessional Store.exec Sample.signed_in "p404")
    Sample.staff = Return true /\
  List.filter is_toast
    (news Sample.staff
       (after (Professionals.deleteProfessional Store.exec Sample.signed_in "p404")
          Sample.staff))
  = [Toasted Professionals.removed_toast].
Proof.
  apply (delete_without_error_reports_success Store.Remote Store.exec
           Sample.signed_in Sample.ana "p404" Sample.staff
           {| data := no_data; error := None; count := None |}
           (snd (Store.exec
                   {| table := "professionals"; verb := delete;
                      filters := [f_eq "id" "p404"; f_eq "user_id" "u1"];
                      order := None; returning := false; single := false |}
                   (remote Sample.staff)))).
  - reflexivity.
  - vm_compute. reflexivity.
  - reflexivity.
Defined.

(** ** Refreshing today's appointments by hand *)

(** C10. A manual refresh while the user is absent or authentication is
    still loading returns at once, in either listing: no request is
    issued, the remote is as it was, and the hook's state (the
    appointments and the loading flag) keeps its prior value. *)
Theorem refresh_without_user_is_inert :
  forall (R : Type) (exec : Request -> R -> Settled * R)
         (toLocaleTimeString : option Js.Value -> string) (l : Listing)
         (auth : Auth) (s : Sys TodayAppointments.Hook R),
    user auth = None \/ authLoading auth = true ->
    let refresh := loadTodayAppointments_of l exec toLocaleTimeString auth in
    result refresh s = Return tt /\
    TodayAppointments.appointments (hook (after refresh s))
    = TodayAppointments.appointments (hook s) /\
    TodayAppointments.loading (hook (after refresh s))
    = TodayAppointments.loading (hook s) /\
    remote (after refresh s) = remote s /\
    no_request (news s (after refresh s)).
Proof.
  intros R exec tl l [usr al] s Hgate. simpl in Hgate.
  assert (Hcases : usr = None \/ (exists u, usr = Some u) /\ al = true).
  { destruct usr as [u|]; [right|left; reflexivity].
    destruct Hgate as [Hn|Ha]; [discriminate|]. split; [eexists; reflexivity|exact Ha]. }
  destruct l; simpl;
    unfold TodayAppointments.First.loadTodayAppointments,
      TodayAppointments.Second.loadTodayAppointments,
      TodayAppointments.Second.waiting; simpl;
    destruct Hcases as [->|[[u ->] ->]]; run;
    repeat split; try news_of_trace; reflexivity.
Qed.

Lemma refresh_without_user_is_inert_witness :
  TodayAppointments.appointments
    (hook
       (after
          (loadTodayAppointments_of second_listing Store.exec Sample.shown
             Sample.resolving)
          SampleToday.showing))
  = SampleToday.seen.
Proof.
  apply (refresh_without_user_is_inert Store.Remote Store.exec Sample.shown
           second_listing Sample.resolving SampleToday.showing).
  left. reflexivity.
Defined.

(** ** The effect on a change of the authentication state *)

(** In the second listing the signed-out branch of the effect empties the
    appointments and clears the loading flag, without a request. *)
Lemma appointments_effect_signed_out {R : Type}
  (exec : Request -> R -> Settled * R)
  (toLocaleTimeString : option Js.Value -> string)
  (s : Sys TodayAppointments.Hook R) :
  let effect :=
    TodayAppointments.Second.useEffect exec toLocaleTimeString
      {| user := None; authLoading := false |} in
  hook (after effect s)
  = {| TodayAppointments.appointments := [];
       TodayAppointments.loading := false |} /\
  remote (after effect s) = remote s /\
  news s (after effect s) = [].
Proof.
  unfold TodayAppointments.Second.useEffect, TodayAppointments.setLoading,
    TodayAppointments.setAppointments. simpl. run.
  repeat split. news_of_trace. reflexivity.
Qed.

(** The first listing has no such branch: its effect does nothing. *)
Lemma appointments_effect_signed_out_first {R : Type}
  (exec : Request -> R -> Settled * R)
  (toLocaleTimeString : option Js.Value -> string)
  (s : Sys TodayAppointments.Hook R) :
  after
    (TodayAppointments.First.useEffect exec toLocaleTimeString
       {| user := None; authLoading := false |}) s = s.
Proof. reflexivity. Qed.

(** Neither has the stats hook: whatever the state, the signed-out run of
    its effect leaves it as it is. *)
Lemma stats_effect_signed_out {R : Type} (exec : Request -> R -> Settled * R)
  (s : Sys Stats.Hook R) :
  after (Stats.useEffect exec {| user := None; authLoading := false |}) s = s.
Proof. reflexivity. Qed.

(** C4, on the code. From the mounted hooks, when authentication
    resolves to no user: the appointments are reset to the empty
    sequence with the loading flag cleared and no request is issued, but
    the loading flag of the stats hook, true since the mount, is still
    true. *)
Theorem signed_out_transition_leaves_stats_loading :
  (let s := after
              (TodayAppointments.Second.useEffect Store.exec Sample.shown
                 Sample.signed_out) SampleToday.showing in
   TodayAppointments.appointments (hook s) = [] /\
   TodayAppointments.loading (hook s) = false /\
   news SampleToday.showing s = []) /\
  (let s := after (Stats.useEffect Store.exec Sample.signed_out)
              SampleStats.mounted in
   Stats.loading (hook s) = true /\
   news SampleStats.mounted s = []).
Proof.
  split.
  - destruct (appointments_effect_signed_out Store.exec Sample.shown
                SampleToday.showing) as (E1 & _ & E3).
    cbv zeta. unfold Sample.signed_out. rewrite E1. split; [reflexivity|]. split; [reflexivity|exact E3].
  - cbv zeta. unfold Sample.signed_out. rewrite stats_effect_signed_out.
    split; reflexivity.
Qed.

(** ** Loading the statistics *)

Section LoadStats.
Context {R : Type}.
Variable exec : Request -> R -> Settled * R.
Variables (auth : Auth) (u : User).
Hypothesis signed_in : user auth = Some u.
Hypothesis resolved : authLoading auth = false.
Variable s : Sys Stats.Hook R.

Local Abbreviation hoje := (Date.split_head "T" (Date.toISOString (now s))).
Local Abbreviation inicioMes := (Date.setDate (tz s) 1 (now s)).

(** When the three promises are fulfilled, whatever the replies hold,
    the statistics are replaced by what the replies' counts give. *)
Lemma loadStats_fulfilled (r1 r2 r3 : Reply) (R1 R2 R3 : R) :
  exec (Stats.patients_request u) (remote s) = (Fulfilled r1, R1) ->
  exec (Stats.appointments_request u hoje) R1 = (Fulfilled r2, R2) ->
  exec (Stats.consultations_request u inicioMes) R2 = (Fulfilled r3, R3) ->
  Stats.loadStats exec auth s
  = (Return tt,
     {| hook :=
          {| Stats.stats :=
               {| Stats.pacientesCadastrados := Js.or_zero (count r1);
                  Stats.agendamentosHoje := Js.or_zero (count r2);
                  Stats.consultasMes := Js.or_zero (count r3);
                  Stats.taxaOcupacao :=
                    Js.Math_min (Stats.occupancy (count r2)) 100;
                  Stats.limitePacientes := 50;
                  Stats.limiteAgendamentos := 10;
                  Stats.limiteConsultas := 100 |};
             Stats.loading := false |};
        remote := R3; now := now s; tz := tz s;
        trace :=
          trace s ++
          [Sent (Stats.patients_request u);
           Sent (Stats.appointments_request u hoje);
           Sent (Stats.consultations_request u inicioMes)] |}).
Proof.
  intros E1 E2 E3. unfold Stats.loadStats, Stats.setLoading, Stats.setStats.
  rewrite signed_in, resolved. run.
  rewrite E1. cbn. rewrite E2. cbn. rewrite E3. cbn.
  rewrite <- !app_assoc. reflexivity.
Qed.

(** When the first promise is rejected the statistics are kept and the
    only trace of the failure is a line on the console. *)
Lemma loadStats_rejected (e : Js.Error) (R1 : R) :
  exec (Stats.patients_request u) (remote s) = (Rejected e, R1) ->
  Stats.stats (hook (after (Stats.loadStats exec auth) s)) = Stats.stats (hook s) /\
  news s (after (Stats.loadStats exec auth) s)
  = [Sent (Stats.patients_request u);
     LoggedError "Erro ao carregar estatísticas:"].
Proof.
  intros E1. unfold Stats.loadStats, Stats.setLoading, Stats.setStats.
  rewrite signed_in, resolved. run. rewrite E1. cbn.
  split; [reflexivity|]. news_of_trace. reflexivity.
Qed.

(** When the replies carry an error, and so no count, the statistics are
    overwritten with zeros; nothing is logged and nothing is notified. *)
Lemma loadStats_error_replies (r1 r2 r3 : Reply) (R1 R2 R3 : R) :
  exec (Stats.patients_request u) (remote s) = (Fulfilled r1, R1) ->
  exec (Stats.appointments_request u hoje) R1 = (Fulfilled r2, R2) ->
  exec (Stats.consultations_request u inicioMes) R2 = (Fulfilled r3, R3) ->
  count r1 = None -> count r2 = None -> count r3 = None ->
  Stats.stats (hook (after (Stats.loadStats exec auth) s))
  = Stats.stats Stats.initial /\
  List.filter (fun e => negb (is_request e))
    (news s (after (Stats.loadStats exec auth) s)) = [].
Proof.
  intros E1 E2 E3 C1 C2 C3. unfold after.
  rewrite (loadStats_fulfilled r1 r2 r3 R1 R2 R3 E1 E2 E3).
  cbn [snd hook Stats.stats]. rewrite C1, C2, C3.
  split; [reflexivity|]. news_of_trace. reflexivity.
Qed.

End LoadStats.

(** [setDate(1)] moves the local time by whole days: the local time of
    day of the lower bound of the month is that of the instant of the
    refresh, not midnight. *)
Lemma setDate_keeps_time_of_day (zone : Date.Zone) (k t : Z) :
  Date.setDate_local zone k t mod Date.msPerDay
  = Date.localTime zone t mod Date.msPerDay.
Proof. unfold Date.setDate_local. apply Z_mod_plus_full. Qed.

(** Without daylight saving the instant itself moves by whole days. *)
Lemma setDate_fixed (m k t : Z) :
  Date.setDate (Date.fixed m) k t
  = t + (k - Date.getDate (Date.fixed m) t) * Date.msPerDay.
Proof.
  unfold Date.setDate, Date.utcTime, Date.setDate_local, Date.localTime.
  cbn [Date.fixed Date.offset_at Date.offset_of_local]. lia.
Qed.

(** C1, on the code. The hook shows earlier statistics and the store
    answers each of the three count requests with an error reply: after
    the refresh the statistics are all zeros, not the earlier ones, and
    the console has no line about it.  (Had the first promise been
    rejected instead, the earlier statistics would have been kept.) *)
Theorem failed_refresh_overwrites_stats :
  let s := SampleStatsData.failing in
  let s' := after (Stats.loadStats Store.exec Sample.signed_in) s in
  Stats.stats (hook s) = SampleStatsData.earlier /\
  Stats.stats (hook s') = Stats.stats Stats.initial /\
  Stats.stats (hook s') <> Stats.stats (hook s) /\
  List.filter (fun e => negb (is_request e)) (news s s') = [] /\
  (let r := SampleStatsData.rejecting in
   Stats.stats (hook (after (Stats.loadStats Store.exec Sample.signed_in) r))
   = Stats.stats (hook r)).
Proof.
  cbv zeta. repeat split; try (vm_compute; reflexivity).
  vm_compute. discriminate.
Qed.

(** C2, on the code. On 2024-03-15 at 15:30:00.123 the lower bound sent
    for the month's consultations is the 1st at that same time of day,
    so of the two consultations created in March the one of the morning
    of the 1st is not counted. *)
Theorem month_count_misses_first_morning :
  let s := SampleStatsData.mid_march in
  let s' := after (Stats.loadStats Store.exec Sample.signed_in) s in
  Date.toISOString (now s) = "2024-03-15T15:30:00.123Z" /\
  In (SampleStatsData.consultation "c1" "2024-03-01T08:00:00.000Z" "u1")
    (Store.from "consultations" (Store.tables (remote s))) /\
  In (Sent
        (Stats.count_request "consultations"
           [f_eq "user_id" "u1"; f_gte "created_at" "2024-03-01T15:30:00.123Z"]))
    (news s s') /\
  Stats.consultasMes (Stats.stats (hook s')) = 1.
Proof.
  cbv zeta. split; [vm_compute; reflexivity|].
  split; [left; reflexivity|].
  split; [|vm_compute; reflexivity].
  assert (E : news SampleStatsData.mid_march
                (after (Stats.loadStats Store.exec Sample.signed_in)
                   SampleStatsData.mid_march)
              = [Sent (Stats.patients_request Sample.ana);
                 Sent (Stats.appointments_request Sample.ana "2024-03-15");
                 Sent
                   (Stats.count_request "consultations"
                      [f_eq "user_id" "u1";
                       f_gte "created_at" "2024-03-01T15:30:00.123Z"])])
    by (vm_compute; reflexivity).
  rewrite E. right. right. left. reflexivity.
Qed.

(** ** The occupancy rate *)

Lemma Math_round_tenths (n : Z) :
  Js.Math_round ((inject_Z n / 10) * 100)%Q = 10 * n.
Proof.
  unfold Js.Math_round, Qfloor, Qplus, Qmult, Qdiv, Qinv, inject_Z. simpl.
  symmetry. apply (Z.div_unique _ _ _ 10); lia.
Qed.

Lemma occupancy_rounds (n : Z) :
  Stats.occupancy (Some n) = Js.Math_round ((inject_Z n / 10) * 100)%Q.
Proof.
  unfold Stats.occupancy, Js.truthy_count, Js.or_zero.
  destruct (Z.eqb_spec n 0) as [->|Hn]; simpl; [|reflexivity].
  rewrite Math_round_tenths. reflexivity.
Qed.

(** C6. After a refresh whose three requests were answered, the second
    one with the count [n] of today's appointments, the occupancy rate
    is [min(100, round(n / 10 * 100))], that is [min(100, 10 n)]; it
    never exceeds 100 and for [n = 15] it is 100. *)
Theorem occupancy_rate_is_clamped :
  forall (R : Type) (exec : Request -> R -> Settled * R) (auth : Auth)
         (u : User) (s : Sys Stats.Hook R) (r1 r2 r3 : Reply) (R1 R2 R3 : R)
         (n : Z),
    user auth = Some u ->
    authLoading auth = false ->
    exec (Stats.patients_request u) (remote s) = (Fulfilled r1, R1) ->
    exec
      (Stats.appointments_request u
         (Date.split_head "T" (Date.toISOString (now s)))) R1
    = (Fulfilled r2, R2) ->
    exec (Stats.consultations_request u (Date.setDate (tz s) 1 (now s))) R2
    = (Fulfilled r3, R3) ->
    count r2 = Some n ->
    let rate :=
      Stats.taxaOcupacao
        (Stats.stats (hook (after (Stats.loadStats exec auth) s))) in
    rate = Z.min 100 (Js.Math_round ((inject_Z n / 10) * 100)%Q) /\
    rate = Z.min 100 (10 * n) /\
    rate <= 100 /\
    (n = 15 -> rate = 100).
Proof.
  intros R exec auth u s r1 r2 r3 R1 R2 R3 n Hu Ha E1 E2 E3 Hn rate.
  assert (Hrate : rate = Z.min 100 (10 * n)).
  { unfold rate, after.
    rewrite (loadStats_fulfilled exec auth u Hu Ha s r1 r2 r3 R1 R2 R3 E1 E2 E3).
    cbn [snd hook Stats.stats Stats.taxaOcupacao].
    rewrite Hn, occupancy_rounds, Math_round_tenths.
    unfold Js.Math_min. apply Z.min_comm. }
  rewrite Math_round_tenths. repeat split; try exact Hrate; rewrite Hrate; lia.
Qed.

Lemma occupancy_rate_is_clamped_witness :
  Stats.taxaOcupacao
    (Stats.stats
       (hook
          (after (Stats.loadStats Store.exec Sample.signed_in)
             SampleStatsData.mid_march)))
  = 100.
Proof.
  pose (q1 := Stats.patients_request Sample.ana).
  pose (q2 := Stats.appointments_request Sample.ana "2024-03-15").
  pose (q3 := Stats.consultations_request Sample.ana
                (Date.setDate (Date.fixed 0) 1 Sample.afternoon)).
  pose (rm0 := remote SampleStatsData.mid_march).
  pose (a1 := Store.exec q1 rm0).
  pose (a2 := Store.exec q2 (snd a1)).
  pose (a3 := Store.exec q3 (snd a2)).
  apply (occupancy_rate_is_clamped Store.Remote Store.exec Sample.signed_in
           Sample.ana SampleStatsData.mid_march
           {| data := no_data; error := None; count := Some 0 |}
           {| data := no_data; error := None; count := Some 15 |}
           {| data := no_data; error := None; count := Some 1 |}
           (snd a1) (snd a2) (snd a3) 15).
  - reflexivity.
  - reflexivity.
  - vm_compute. reflexivity.
  - vm_compute. reflexivity.
  - vm_compute. reflexivity.
  - reflexivity.
  - reflexivity.
Defined.

(** ** The lexicographic order of texts *)

#[local] Arguments String.append !_ _ / : simpl nomatch.

Lemma ascii_compare_refl (a : ascii) : Ascii.compare a a = Eq.
Proof. unfold Ascii.compare. apply N.compare_refl. Qed.

Lemma append_assoc (a b c : string) : (a +:+ b) +:+ c = a +:+ (b +:+ c).
Proof. induction a as [|x a IH]; simpl; [reflexivity|]. rewrite IH. reflexivity. Qed.

Lemma length_append (a b : string) :
  String.length (a +:+ b) = (String.length a + String.length b)%nat.
Proof. induction a as [|x a IH]; simpl; [reflexivity|]. rewrite IH. reflexivity. Qed.

Lemma compare_app_same (p a b : string) :
  String.compare (p +:+ a) (p +:+ b) = String.compare a b.
Proof.
  induction p as [|x p IH]; simpl; [reflexivity|].
  rewrite ascii_compare_refl. exact IH.
Qed.

Lemma compare_app_lt (a b x y : string) :
  String.compare a b = Lt -> String.length a = String.length b ->
  String.compare (a +:+ x) (b +:+ y) = Lt.
Proof.
  revert b. induction a as [|c a IH]; intros [|d b]; simpl; try discriminate.
  destruct (Ascii.compare c d); intros Hlt Hlen; try discriminate.
  - apply IH; [exact Hlt|]. injection Hlen as Hlen. exact Hlen.
  - reflexivity.
Qed.

Lemma compare_prefix (s t : string) : String.compare s (s +:+ t) <> Gt.
Proof.
  induction s as [|x s IH]; simpl.
  - destruct t; discriminate.
  - rewrite ascii_compare_refl. exact IH.
Qed.

Lemma leb_prefix (s t : string) : String.leb s (s +:+ t) = true.
Proof.
  unfold String.leb. pose proof (compare_prefix s t) as H.
  destruct (String.compare s (s +:+ t)); congruence.
Qed.

Lemma ltb_extension (s t : string) : String.ltb (s +:+ t) s = false.
Proof.
  unfold String.ltb. rewrite String.compare_antisym.
  pose proof (compare_prefix s t) as H.
  destruct (String.compare s (s +:+ t)); simpl; congruence.
Qed.

(** ** Zero-padded numbers and ISO dates *)

Lemma digit_cases (k : Z) :
  0 <= k < 10 ->
  k = 0 \/ k = 1 \/ k = 2 \/ k = 3 \/ k = 4 \/ k = 5 \/ k = 6 \/ k = 7 \/
  k = 8 \/ k = 9.
Proof. lia. Qed.

Lemma digit_lt (a b : Z) :
  0 <= a -> a < b -> b < 10 -> Ascii.compare (Date.digit a) (Date.digit b) = Lt.
Proof.
  intros Ha Hab Hb.
  destruct (digit_cases a ltac:(lia)) as [-> | [-> | [-> | [-> | [-> | [-> | [-> | [-> | [-> | ->]]]]]]]]];
    destruct (digit_cases b ltac:(lia)) as [-> | [-> | [-> | [-> | [-> | [-> | [-> | [-> | [-> | ->]]]]]]]]];
    try lia; reflexivity.
Qed.

Lemma length_pad (w : nat) (n : Z) : String.length (Date.pad w n) = w.
Proof.
  revert n. induction w as [|w IH]; intros n; simpl; [reflexivity|].
  rewrite length_append, IH. simpl. lia.
Qed.

Lemma pad_lt (w : nat) (n m : Z) :
  0 <= n -> n < m -> m < 10 ^ Z.of_nat w ->
  String.compare (Date.pad w n) (Date.pad w m) = Lt.
Proof.
  revert n m. induction w as [|w IH]; intros n m Hn Hnm Hm.
  - simpl in Hm. lia.
  - rewrite Nat2Z.inj_succ, Z.pow_succ_r in Hm by lia.
    cbn [Date.pad].
    destruct (Z.eq_dec (n / 10) (m / 10)) as [E|E].
    + rewrite E, compare_app_same. cbn [String.compare].
      rewrite (digit_lt (n mod 10) (m mod 10)); [reflexivity| | |].
      * apply Z.mod_pos_bound. lia.
      * pose proof (Z.div_mod n 10 ltac:(lia)).
        pose proof (Z.div_mod m 10 ltac:(lia)). lia.
      * apply Z.mod_pos_bound. lia.
    + apply compare_app_lt.
      * apply IH.
        -- apply Z.div_pos; lia.
        -- assert (n / 10 <= m / 10) by (apply Z.div_le_mono; lia). lia.
        -- apply Z.div_lt_upper_bound; lia.
      * rewrite !length_pad. reflexivity.
Qed.

Lemma lacks_append (c : ascii) (a b : string) :
  Date.lacks c (a +:+ b) = Date.lacks c a && Date.lacks c b.
Proof.
  induction a as [|x a IH]; simpl; [reflexivity|].
  rewrite IH. apply andb_assoc.
Qed.

Lemma pad_lacks_T (w : nat) (n : Z) : Date.lacks "T" (Date.pad w n) = true.
Proof.
  revert n. induction w as [|w IH]; intros n; simpl; [reflexivity|].
  rewrite lacks_append, IH. cbn [Date.lacks andb].
  destruct (digit_cases (n mod 10) (Z.mod_pos_bound n 10 ltac:(lia)))
    as [-> | [-> | [-> | [-> | [-> | [-> | [-> | [-> | [-> | ->]]]]]]]]];
    reflexivity.
Qed.

Lemma isoDate_lacks_T (c : Date.Civil) : Date.lacks "T" (Date.isoDate c) = true.
Proof.
  unfold Date.isoDate, Date.isoYear.
  destruct ((0 <=? Date.year c) && (Date.year c <=? 9999));
    [|destruct (Date.year c <? 0)];
    rewrite !lacks_append, !pad_lacks_T; reflexivity.
Qed.

Lemma split_head_lacks (c : ascii) (s rest : string) :
  Date.lacks c s = true -> Date.split_head c (s +:+ String c rest) = s.
Proof.
  induction s as [|x s IH]; simpl.
  - intros _. destruct (decide (c = c)); [reflexivity|congruence].
  - intros H. apply andb_prop in H as [Hx Hs].
    destruct (decide (x = c)) as [->|_].
    + rewrite bool_decide_eq_true_2 in Hx by reflexivity. discriminate.
    + rewrite (IH Hs). reflexivity.
Qed.

(** [new Date().toISOString().split('T')[0]] is the calendar date in UTC. *)
Lemma hoje_is_utc_date (t : Z) :
  TodayAppointments.hoje_of t
  = Date.isoDate (Date.civil_of_day (t / Date.msPerDay)).
Proof.
  unfold TodayAppointments.hoje_of, Date.toISOString.
  apply split_head_lacks. apply isoDate_lacks_T.
Qed.

(** ** The calendar, day after day *)

Lemma daysInMonth_bounds (y m : Z) : 28 <= Date.daysInMonth y m <= 31.
Proof.
  unfold Date.daysInMonth.
  destruct (m =? 2); [destruct (Date.leap y); lia|].
  destruct ((m =? 4) || (m =? 6) || (m =? 9) || (m =? 11)); lia.
Qed.

Lemma next_day_valid (c : Date.Civil) : Date.valid c -> Date.valid (Date.next_day c).
Proof.
  destruct c as [y m d]. unfold Date.valid, Date.next_day. cbn.
  intros [Hm Hd].
  destruct (Z.ltb_spec d (Date.daysInMonth y m)); cbn; [lia|].
  destruct (Z.ltb_spec m 12); cbn.
  - pose proof (daysInMonth_bounds y (m + 1)). lia.
  - pose proof (daysInMonth_bounds (y + 1) 1). lia.
Qed.

Lemma next_day_year (c : Date.Civil) : Date.year c <= Date.year (Date.next_day c).
Proof.
  destruct c as [y m d]. unfold Date.next_day. cbn.
  destruct (d <? Date.daysInMonth y m); cbn; [lia|].
  destruct (m <? 12); cbn; lia.
Qed.

Lemma civil_of_day_since_epoch (n : Z) :
  0 <= n ->
  Date.valid (Date.civil_of_day n) /\ 1970 <= Date.year (Date.civil_of_day n).
Proof.
  intros Hn. unfold Date.civil_of_day.
  destruct (Z.leb_spec 0 n); [|lia].
  apply (PeanoNat.Nat.iter_ind Date.Civil Date.next_day Date.epoch
           (fun _ c => Date.valid c /\ 1970 <= Date.year c)).
  - unfold Date.valid. cbn. lia.
  - intros _ c [Hv Hy]. split; [apply next_day_valid, Hv|].
    pose proof (next_day_year c). lia.
Qed.

Lemma civil_of_day_succ (n : Z) :
  0 <= n -> Date.civil_of_day (n + 1) = Date.next_day (Date.civil_of_day n).
Proof.
  intros Hn. unfold Date.civil_of_day.
  destruct (Z.leb_spec 0 n); [|lia].
  destruct (Z.leb_spec 0 (n + 1)); [|lia].
  replace (Z.to_nat (n + 1)) with (S (Z.to_nat n)) by lia.
  reflexivity.
Qed.

Lemma isoYear_four_digits (y : Z) :
  0 <= y <= 9999 -> Date.isoYear y = Date.pad 4 y.
Proof.
  intros Hy. unfold Date.isoYear.
  destruct (Z.leb_spec 0 y); [|lia].
  destruct (Z.leb_spec y 9999); [reflexivity|lia].
Qed.

(** Within the years of four digits the text of a date is below the text
    of the next day, whatever follows the two dates. *)
Lemma isoDate_next_day (c : Date.Civil) (x y : string) :
  Date.valid c -> 0 <= Date.year c -> Date.year (Date.next_day c) <= 9999 ->
  String.compare (Date.isoDate c +:+ x) (Date.isoDate (Date.next_day c) +:+ y)
  = Lt.
Proof.
  destruct c as [yr m d]. unfold Date.valid, Date.next_day.
  cbn [Date.year Date.month Date.day].
  intros [Hm Hd] Hy.
  pose proof (daysInMonth_bounds yr m) as Hdim.
  destruct (Z.ltb_spec d (Date.daysInMonth yr m));
    [|destruct (Z.ltb_spec m 12)];
    unfold Date.isoDate; cbn [Date.year Date.month Date.day]; intros Hnext;
    rewrite !append_assoc.
  - rewrite !compare_app_same.
    apply compare_app_lt; [|rewrite !length_pad; reflexivity].
    apply pad_lt; cbn; lia.
  - rewrite !compare_app_same.
    apply compare_app_lt; [|rewrite !length_pad; reflexivity].
    apply pad_lt; cbn; lia.
  - rewrite !isoYear_four_digits by lia.
    apply compare_app_lt; [|rewrite !length_pad; reflexivity].
    apply pad_lt; cbn; lia.
Qed.

(** From the epoch to the end of year 9998 the day string of an instant
    is below the day string of the instant one day later. *)
Lemma hoje_next_day (t : Z) (x y : string) :
  0 <= t ->
  Date.year (Date.civil_of_day ((t + Date.msPerDay) / Date.msPerDay)) <= 9999 ->
  String.compare (TodayAppointments.hoje_of t +:+ x)
    (TodayAppointments.hoje_of (t + Date.msPerDay) +:+ y) = Lt /\
  String.length (TodayAppointments.hoje_of t)
  = String.length (TodayAppointments.hoje_of (t + Date.msPerDay)).
Proof.
  intros Ht Hy. rewrite !hoje_is_utc_date.
  assert (E : (t + Date.msPerDay) / Date.msPerDay = t / Date.msPerDay + 1).
  { unfold Date.msPerDay.
    replace (t + 86400000) with (t + 1 * 86400000) by lia.
    rewrite Z.div_add by lia. reflexivity. }
  rewrite E in *.
  assert (Hd : 0 <= t / Date.msPerDay).
  { apply Z.div_pos; unfold Date.msPerDay; lia. }
  rewrite civil_of_day_succ in * by exact Hd.
  destruct (civil_of_day_since_epoch _ Hd) as [Hv H70].
  split; [apply isoDate_next_day; [exact Hv|lia|exact Hy]|].
  pose proof (next_day_year (Date.civil_of_day (t / Date.msPerDay))) as Hle.
  unfold Date.isoDate.
  rewrite !isoYear_four_digits by lia.
  rewrite !length_append, !length_pad. reflexivity.
Qed.

(** C3, on the code. At 22:30 of 2024-03-15 in a zone three hours west
    of Greenwich the calendar date of the caller is 2024-03-15, yet the
    lower bound that either listing sends is 2024-03-16, the date in
    UTC; the appointment of that evening is not fetched and the one of
    the next morning is. *)
Theorem today_is_the_utc_date_not_the_local_one :
  let s := SampleEvening.mounted in
  Date.localDateString (tz s) (now s) = "2024-03-15" /\
  TodayAppointments.hoje_of (now s) = "2024-03-16" /\
  forall l : Listing,
    let s' := after
                (loadTodayAppointments_of l Store.exec Sample.shown
                   Sample.signed_in) s in
    In (Sent (TodayAppointments.today_request Sample.ana "2024-03-16"))
      (news s s') /\
    map TodayAppointments.id (TodayAppointments.appointments (hook s'))
    = [Some (Js.Str "a2")].
Proof.
  cbv zeta. split; [vm_compute; reflexivity|].
  split; [vm_compute; reflexivity|].
  intros l. split; [|destruct l; vm_compute; reflexivity].
  destruct l.
  - assert (E : news SampleEvening.mounted
                  (after
                     (loadTodayAppointments_of first_listing Store.exec
                        Sample.shown Sample.signed_in) SampleEvening.mounted)
                = [Sent (TodayAppointments.today_request Sample.ana "2024-03-16")])
      by (vm_compute; reflexivity).
    rewrite E. left. reflexivity.
  - assert (E : news SampleEvening.mounted
                  (after
                     (loadTodayAppointments_of second_listing Store.exec
                        Sample.shown Sample.signed_in) SampleEvening.mounted)
                = [Logged "Carregando agendamentos de hoje para usuário:";
                   Sent (TodayAppointments.today_request Sample.ana "2024-03-16");
                   Logged "Agendamentos de hoje carregados:"])
      by (vm_compute; reflexivity).
    rewrite E. right. left. reflexivity.
Qed.

(** ** What the modelled store selects *)

Lemma exec_available (q : Request) (rm : Store.Remote) :
  Store.available rm ->
  Store.exec q rm
  = (Fulfilled (Store.run q (Store.tables rm) (Store.serial rm)).1.1,
     {| Store.tables := (Store.run q (Store.tables rm) (Store.serial rm)).1.2;
        Store.pending := tail (Store.pending rm);
        Store.serial := (Store.run q (Store.tables rm) (Store.serial rm)).2 |}).
Proof.
  unfold Store.available, Store.exec.
  destruct (Store.pending rm) as [|[| |] rest]; try contradiction; intros _;
    destruct (Store.run q (Store.tables rm) (Store.serial rm)) as [[reply db] n];
    reflexivity.
Qed.

Lemma In_insert_by (c : string) (x r : Row) (l : list Row) :
  In x (Store.insert_by c r l) <-> x = r \/ In x l.
Proof.
  induction l as [|y l IH]; simpl; [intuition congruence|].
  destruct (String.leb (Store.text c r) (Store.text c y)); simpl;
    [intuition congruence|].
  rewrite IH. intuition congruence.
Qed.

Lemma In_sort_by (c : string) (x : Row) (l : list Row) :
  In x (Store.sort_by c l) <-> In x l.
Proof.
  unfold Store.sort_by. induction l as [|y l IH]; simpl; [reflexivity|].
  rewrite In_insert_by, IH. intuition congruence.
Qed.

Lemma selected_today (u : User) (hoje ts : string) (r : Row) :
  r !! "user_id" = Some (Js.Str (uid u)) ->
  r !! "data_agendamento" = Some (Js.Str ts) ->
  Store.selected (filters (TodayAppointments.today_request u hoje)) r
  = String.leb hoje ts && String.ltb ts (hoje +:+ "T23:59:59").
Proof.
  intros Hu Ht. unfold Store.selected. cbn [TodayAppointments.today_request filters forallb Store.holds].
  rewrite Hu, Ht. rewrite bool_decide_eq_true_2 by reflexivity.
  cbn [andb]. rewrite andb_true_r. reflexivity.
Qed.

(** After a refresh by a signed-in user that the store answers, the ids
    the hook holds are those of the selected rows, in their order. *)
Lemma today_ids (l : Listing) (toLocaleTimeString : option Js.Value -> string)
  (auth : Auth) (u : User) (s : Sys TodayAppointments.Hook Store.Remote) :
  user auth = Some u -> authLoading auth = false ->
  Store.available (remote s) ->
  map TodayAppointments.id
    (TodayAppointments.appointments
       (hook (after (loadTodayAppointments_of l Store.exec toLocaleTimeString auth) s)))
  = map (fun r : Row => r !! "id")
      (Store.sort_by "data_agendamento"
         (List.filter
            (Store.selected
               (filters
                  (TodayAppointments.today_request u
                     (TodayAppointments.hoje_of (now s)))))
            (Store.from "appointments" (Store.tables (remote s))))).
Proof.
  intros Hu Ha Hav.
  destruct l; cbn [loadTodayAppointments_of];
    unfold TodayAppointments.First.loadTodayAppointments,
      TodayAppointments.Second.loadTodayAppointments,
      TodayAppointments.setLoading, TodayAppointments.setAppointments;
    rewrite Hu, Ha; run; rewrite (exec_available _ _ Hav);
    cbn; rewrite !map_map; reflexivity.
Qed.

(** With ids that identify the rows, an appointment is listed exactly
    when its row is selected. *)
Lemma listed_iff_selected (l : Listing)
  (toLocaleTimeString : option Js.Value -> string) (auth : Auth) (u : User)
  (s : Sys TodayAppointments.Hook Store.Remote) (r : Row) (i : string) :
  user auth = Some u -> authLoading auth = false ->
  Store.available (remote s) ->
  In r (Store.from "appointments" (Store.tables (remote s))) ->
  (forall r' : Row,
      In r' (Store.from "appointments" (Store.tables (remote s))) ->
      r' !! "id" = Some (Js.Str i) -> r' = r) ->
  r !! "id" = Some (Js.Str i) ->
  listed i (hook (after (loadTodayAppointments_of l Store.exec toLocaleTimeString auth) s))
  <-> Store.selected
        (filters
           (TodayAppointments.today_request u (TodayAppointments.hoje_of (now s))))
        r = true.
Proof.
  intros Hu Ha Hav Hin Hkey Hid. unfold listed.
  rewrite (today_ids l toLocaleTimeString auth u s Hu Ha Hav).
  rewrite in_map_iff. split.
  - intros (r' & Hid' & Hin'). apply In_sort_by, filter_In in Hin'.
    destruct Hin' as [Hin' Hsel]. rewrite (Hkey r' Hin' Hid') in Hsel. exact Hsel.
  - intros Hsel. exists r. split; [exact Hid|].
    apply In_sort_by, filter_In. split; assumption.
Qed.

(** The window relative to the day string the hook computes, which is
    the date in UTC: of the rows of the current user, the one scheduled
    on that day at 00:00:00 is fetched, the one scheduled at 23:59:59 is
    not, and neither is one scheduled on the day after.  The ids
    identify the rows, and for the day after the years have four
    digits. *)
Theorem today_window_is_half_open :
  forall (l : Listing) (toLocaleTimeString : option Js.Value -> string)
         (auth : Auth) (u : User)
         (s : Sys TodayAppointments.Hook Store.Remote)
         (r : Row) (i ts : string),
    user auth = Some u ->
    authLoading auth = false ->
    Store.available (remote s) ->
    In r (Store.from "appointments" (Store.tables (remote s))) ->
    (forall r' : Row,
        In r' (Store.from "appointments" (Store.tables (remote s))) ->
        r' !! "id" = Some (Js.Str i) -> r' = r) ->
    r !! "id" = Some (Js.Str i) ->
    r !! "user_id" = Some (Js.Str (uid u)) ->
    r !! "data_agendamento" = Some (Js.Str ts) ->
    let hoje := TodayAppointments.hoje_of (now s) in
    let amanha := TodayAppointments.hoje_of (now s + Date.msPerDay) in
    let h' :=
      hook (after (loadTodayAppointments_of l Store.exec toLocaleTimeString auth) s) in
    (forall sfx : string, ts = hoje +:+ "T00:00:00" +:+ sfx -> listed i h') /\
    (forall sfx : string, ts = hoje +:+ "T23:59:59" +:+ sfx -> ~ listed i h') /\
    (forall rest : string,
        0 <= now s ->
        Date.year (Date.civil_of_day ((now s + Date.msPerDay) / Date.msPerDay))
        <= 9999 ->
        ts = amanha +:+ rest -> ~ listed i h').
Proof.
  intros l tl auth u s r i ts Hu Ha Hav Hin Hkey Hid Howner Hts hoje amanha h'.
  pose proof (listed_iff_selected l tl auth u s r i Hu Ha Hav Hin Hkey Hid) as L.
  fold h' in L. rewrite (selected_today u _ ts r Howner Hts) in L. fold hoje in L.
  split; [|split].
  - intros sfx ->. apply L. apply andb_true_intro. split.
    + apply leb_prefix.
    + unfold String.ltb. rewrite compare_app_same. reflexivity.
  - intros sfx -> Hl. apply L in Hl. apply andb_prop in Hl as [_ Hlt].
    rewrite <- append_assoc, ltb_extension in Hlt. discriminate.
  - intros rest H0 Hy -> Hl. apply L in Hl. apply andb_prop in Hl as [_ Hlt].
    destruct (hoje_next_day (now s) "T23:59:59" rest H0 Hy) as [Hcmp _].
    fold hoje amanha in Hcmp.
    unfold String.ltb in Hlt. rewrite String.compare_antisym, Hcmp in Hlt.
    discriminate.
Qed.

Lemma today_window_is_half_open_witness :
  let h' :=
    hook
      (after
         (loadTodayAppointments_of second_listing Store.exec Sample.shown
            Sample.signed_in) SampleWindow.mounted) in
  listed "a0" h' /\ ~ listed "a1" h' /\ ~ listed "a2" h'.
Proof.
  assert (Hkey : forall (r : Row) (i : string),
             In r [SampleWindow.next_morning; SampleWindow.last_second;
                   SampleWindow.first_second] ->
             r !! "id" = Some (Js.Str i) ->
             forall r' : Row,
               In r' (Store.from "appointments"
                        (Store.tables (remote SampleWindow.mounted))) ->
               r' !! "id" = Some (Js.Str i) -> r' = r).
  { intros r i Hr Hi r' Hr' Hi'. rewrite <- Hi in Hi'. clear Hi.
    change (In r' [SampleWindow.next_morning; SampleWindow.last_second;
                   SampleWindow.first_second]) in Hr'.
    simpl in Hr, Hr'.
    destruct Hr as [<-|[<-|[<-|[]]]]; destruct Hr' as [<-|[<-|[<-|[]]]];
      try reflexivity; vm_compute in Hi'; discriminate. }
  cbv zeta. split; [|split].
  - refine (proj1
              (today_window_is_half_open second_listing Sample.shown
                 Sample.signed_in Sample.ana SampleWindow.mounted
                 SampleWindow.first_second "a0" "2024-03-15T00:00:00"
                 eq_refl eq_refl I _ _ eq_refl eq_refl eq_refl) "" _).
    + right. right. left. reflexivity.
    + apply Hkey; [right; right; left; reflexivity|reflexivity].
    + vm_compute. reflexivity.
  - refine (proj1 (proj2
              (today_window_is_half_open second_listing Sample.shown
                 Sample.signed_in Sample.ana SampleWindow.mounted
                 SampleWindow.last_second "a1" "2024-03-15T23:59:59"
                 eq_refl eq_refl I _ _ eq_refl eq_refl eq_refl)) "" _).
    + right. left. reflexivity.
    + apply Hkey; [right; left; reflexivity|reflexivity].
    + vm_compute. reflexivity.
  - refine (proj2 (proj2
              (today_window_is_half_open second_listing Sample.shown
                 Sample.signed_in Sample.ana SampleWindow.mounted
                 SampleWindow.next_morning "a2" "2024-03-16T08:00:00"
                 eq_refl eq_refl I _ _ eq_refl eq_refl eq_refl)) "T08:00:00" _ _ _).
    + left. reflexivity.
    + apply Hkey; [left; reflexivity|reflexivity].
    + vm_compute. discriminate.
    + vm_compute. discriminate.
    + vm_compute. reflexivity.
Defined.

(** ** The window on the caller's own day *)

Lemma isoDate_day_after (n : Z) (x y : string) :
  0 <= n ->
  Date.year (Date.civil_of_day (n + 1)) <= 9999 ->
  String.compare (Date.isoDate (Date.civil_of_day n) +:+ x)
    (Date.isoDate (Date.civil_of_day (n + 1)) +:+ y) = Lt.
Proof.
  intros Hn Hy. rewrite civil_of_day_succ in * by exact Hn.
  destruct (civil_of_day_since_epoch n Hn) as [Hv H70].
  apply isoDate_next_day; [exact Hv|lia|exact Hy].
Qed.




(** ** Updating a professional and reading it back *)

Section UpdateThenGet.
Variables (id owner field : string) (v : Js.Value).
Hypothesis not_id : field <> "id".
Hypothesis not_owner : field <> "user_id".

Local Abbreviation by_id := [f_eq "id" id; f_eq "user_id" owner].
Local Abbreviation patch := ({[ field := v ]} : Row).

Lemma selected_patched (r : Row) :
  Store.selected by_id (patch ∪ r) = Store.selected by_id r.
Proof.
  unfold Store.selected. cbn [forallb Store.holds].
  rewrite !lookup_union_r by (apply lookup_singleton_ne; assumption).
  reflexivity.
Qed.

Lemma filter_patched (t : list Row) :
  List.filter (Store.selected by_id)
    (map (fun r => if Store.selected by_id r then patch ∪ r else r) t)
  = map (fun r => patch ∪ r) (List.filter (Store.selected by_id) t).
Proof.
  induction t as [|r t IH]; [reflexivity|]. cbn [map List.filter].
  destruct (Store.selected by_id r) eqn:E.
  - rewrite selected_patched, E. cbn [map]. rewrite IH. reflexivity.
  - rewrite E. exact IH.
Qed.

Lemma patched_field (r : Row) : (patch ∪ r) !! field = Some v.
Proof.
  apply lookup_union_Some_l. apply lookup_singleton_eq.
Qed.

Lemma patched_others (r : Row) (g : string) :
  g <> field -> (patch ∪ r) !! g = r !! g.
Proof.
  intros Hg. apply lookup_union_r.
  apply lookup_singleton_ne. congruence.
Qed.

End UpdateThenGet.

(** [getById] when the store serves the request: the row, when exactly
    one row has that id and that owner. *)
Lemma getProfessionalById_store (auth : Auth) (u : User) (id : string)
  (s : Sys Professionals.Hook Store.Remote) :
  user auth = Some u -> Store.available (remote s) ->
  result (Professionals.getProfessionalById Store.exec auth id) s
  = Return
      match
        List.filter (Store.selected [f_eq "id" id; f_eq "user_id" (uid u)])
          (Store.from "professionals" (Store.tables (remote s)))
      with
      | [r] => Some r
      | _ => None
      end.
Proof.
  intros Hu Hav.
  unfold Professionals.getProfessionalById, Professionals.setLoading.
  rewrite Hu. run. rewrite (exec_available _ _ Hav). cbn.
  destruct (List.filter _ _) as [|r [|r' rest]]; reflexivity.
Qed.

(** [update] never succeeds on a fault. *)
Lemma updateProfessional_needs_store (auth : Auth) (id : string)
  (professionalData d : Row) (s : Sys Professionals.Hook Store.Remote) :
  result (Professionals.updateProfessional Store.exec auth id professionalData) s
  = Return (Some d) ->
  Store.available (remote s).
Proof.
  unfold Professionals.updateProfessional, Professionals.setLoading,
    Store.available.
  destruct (user auth) as [u|]; run; [|discriminate].
  unfold Store.exec.
  destruct (Store.pending (remote s)) as [|[| |] rest]; cbn;
    first [discriminate | intros _; exact I].
Qed.

(** [update] when the store serves the request: it succeeds exactly when
    one row has that id and that owner, and then that row is patched. *)
Lemma updateProfessional_store (auth : Auth) (u : User) (id : string)
  (professionalData : Row) (s : Sys Professionals.Hook Store.Remote) :
  user auth = Some u -> Store.available (remote s) ->
  let sel := Store.selected [f_eq "id" id; f_eq "user_id" (uid u)] in
  let t := Store.from "professionals" (Store.tables (remote s)) in
  let s' := after (Professionals.updateProfessional Store.exec auth id professionalData) s in
  result (Professionals.updateProfessional Store.exec auth id professionalData) s
  = Return
      match List.filter sel t with
      | [r] => Some (professionalData ∪ r)
      | _ => None
      end /\
  Store.from "professionals" (Store.tables (remote s'))
  = map (fun r => if sel r then professionalData ∪ r else r) t.
Proof.
  intros Hu Hav sel t s'. unfold s'.
  unfold Professionals.updateProfessional, Professionals.setLoading.
  rewrite Hu. run. rewrite (exec_available _ _ Hav).
  cbn. fold sel t.
  assert (Htab : Store.from "professionals"
                   (<["professionals" :=
                        map (fun r => if sel r then professionalData ∪ r else r) t]>
                      (Store.tables (remote s)))
                 = map (fun r => if sel r then professionalData ∪ r else r) t).
  { unfold Store.from. rewrite lookup_insert_eq. reflexivity. }
  destruct (List.filter sel t) as [|r [|r' rest]]; cbn;
    (split; [reflexivity|exact Htab]).
Qed.

(** C8, as the code has it. For a signed-in user, every field of a
    professional other than [id] and every value: after a successful
    [update(id, {field: v})], a [getById(id)] that the store serves
    returns a record that holds [v] in that field and, in the other
    fields, what the record held before the update. *)
Theorem update_then_get_reflects_field :
  forall (auth : Auth) (u : User) (s : Sys Professionals.Hook Store.Remote)
         (id field : string) (v : Js.Value),
    user auth = Some u ->
    In field Professionals.Professional_keys ->
    field <> "id" ->
    Store.available
      (remote
         (after
            (Professionals.updateProfessional Store.exec auth id {[ field := v ]})
            s)) ->
    update_reflects auth s id field v.
Proof.
  intros auth u s id field v Hu Hkey Hid Hav' d Hd.
  assert (Hown : field <> "user_id").
  { intros ->. unfold Professionals.Professional_keys in Hkey. simpl in Hkey.
    repeat (destruct Hkey as [Hkey|Hkey]; [discriminate|]). exact Hkey. }
  pose proof (updateProfessional_needs_store auth id _ d s Hd) as Hav.
  destruct (updateProfessional_store auth u id {[ field := v ]} s Hu Hav)
    as (Hres & Htab).
  rewrite Hres in Hd.
  rewrite (getProfessionalById_store auth u id s Hu Hav).
  rewrite (getProfessionalById_store auth u id _ Hu Hav').
  rewrite Htab, (filter_patched id (uid u) field v Hid Hown).
  destruct (List.filter _ _) as [|r0 [|r' rest]]; try discriminate.
  exists r0, ({[ field := v ]} ∪ r0). cbn [map].
  split; [reflexivity|]. split; [reflexivity|].
  split; [apply patched_field|]. intros g Hg. apply patched_others, Hg.
Qed.

Lemma update_then_get_reflects_field_witness :
  exists r1 : Row,
    result (Professionals.getProfessionalById Store.exec Sample.signed_in "p1")
      (after
         (Professionals.updateProfessional Store.exec Sample.signed_in "p1"
            {[ "nome" := Js.Str "Zoe" ]}) Sample.staff)
    = Return (Some r1) /\
    r1 !! "nome" = Some (Js.Str "Zoe") /\
    r1 !! "tipo" = Some (Js.Str "medico").
Proof.
  assert (Hserved :
            Store.available
              (remote
                 (after
                    (Professionals.updateProfessional Store.exec
                       Sample.signed_in "p1" {[ "nome" := Js.Str "Zoe" ]})
                    Sample.staff)))
    by (vm_compute; exact I).
  assert (Hdone :
            result
              (Professionals.updateProfessional Store.exec Sample.signed_in
                 "p1" {[ "nome" := Js.Str "Zoe" ]}) Sample.staff
            = Return
                (Some
                   (({[ "nome" := Js.Str "Zoe" ]} : Row)
                    ∪ Sample.professional "p1" "Zelia" "u1")))
    by (vm_compute; reflexivity).
  destruct
    (update_then_get_reflects_field Sample.signed_in Sample.ana Sample.staff
       "p1" "nome" (Js.Str "Zoe") eq_refl
       ltac:(simpl; tauto) ltac:(discriminate) Hserved _ Hdone)
    as (r0 & r1 & Hbefore & Hafter & Hfield & Hothers).
  exists r1. split; [exact Hafter|]. split; [exact Hfield|].
  rewrite (Hothers "tipo") by discriminate.
  assert (E : result
                (Professionals.getProfessionalById Store.exec Sample.signed_in "p1")
                Sample.staff
              = Return (Some (Sample.professional "p1" "Zelia" "u1")))
    by (vm_compute; reflexivity).
  rewrite E in Hbefore. injection Hbefore as <-. reflexivity.
Defined.

(** C8, as stated, fails for the field [id]: the update of p1 that sets
    its id to p9 succeeds, and reading p1 back finds no row. *)
Lemma update_of_id_is_not_read_back :
  ~ update_reflects Sample.signed_in Sample.staff "p1" "id" (Js.Str "p9").
Proof.
  intros H.
  destruct (H ({[ "id" := Js.Str "p9" ]} ∪ Sample.professional "p1" "Zelia" "u1"))
    as (r0 & r1 & _ & Hget & _).
  - vm_compute. reflexivity.
  - vm_compute in Hget. discriminate.
Qed.

(** * Further properties of the hooks *)

(** ** The professionals adapter, whatever the client answers *)

(** Splits on what the client answers to the request of the run. *)
Ltac answer exec :=
  match goal with
  | |- context [exec ?q ?r] =>
      let reply := fresh "reply" in
      let e := fresh "e" in
      let r' := fresh "r'" in
      destruct (exec q r) as [[reply|e] r']; cbn;
      [destruct (error reply) as [e|]; cbn|]
  end.

(** X1. Each of the five operations ends with the loading flag cleared,
    whoever calls it and whatever the client answers, failures
    included. *)
Theorem operations_clear_loading :
  forall (R : Type) (exec : Request -> R -> Settled * R) (auth : Auth)
         (s : Sys Professionals.Hook R) (id : string) (professionalData : Row),
    Professionals.loading
      (hook (after (Professionals.getProfessionals exec auth) s)) = false /\
    Professionals.loading
      (hook (after (Professionals.getProfessionalById exec auth id) s)) = false /\
    Professionals.loading
      (hook (after (Professionals.createProfessional exec auth professionalData) s))
    = false /\
    Professionals.loading
      (hook (after (Professionals.updateProfessional exec auth id professionalData) s))
    = false /\
    Professionals.loading
      (hook (after (Professionals.deleteProfessional exec auth id) s)) = false.
Proof.
  intros R exec [[u|] al] s id professionalData;
    unfold Professionals.getProfessionals, Professionals.getProfessionalById,
      Professionals.createProfessional, Professionals.updateProfessional,
      Professionals.deleteProfessional, Professionals.setLoading;
    cbn [user authLoading]; repeat split; run;
    try (destruct al; cbn); try reflexivity;
    try (answer exec; try reflexivity;
         destruct (row_or_null (data reply)); reflexivity).
Qed.

(** X2. While authentication is still loading, listing the professionals
    returns the empty sequence without a request and without a
    notification, even when a user is already known. *)
Theorem getProfessionals_waits_for_auth :
  forall (R : Type) (exec : Request -> R -> Settled * R) (auth : Auth)
         (s : Sys Professionals.Hook R),
    authLoading auth = true ->
    let s' := after (Professionals.getProfessionals exec auth) s in
    result (Professionals.getProfessionals exec auth) s = Return [] /\
    remote s' = remote s /\
    requests s s' = [] /\
    toasts s s' = [].
Proof.
  intros R exec [usr al] s Hal. cbn in Hal. subst al. cbv zeta.
  unfold Professionals.getProfessionals, Professionals.setLoading.
  cbn [user authLoading]. run.
  repeat split; unfold toasts, requests; news_of_trace; reflexivity.
Qed.

Lemma getProfessionals_waits_for_auth_witness :
  result (Professionals.getProfessionals Store.exec SampleFaults.reloading)
    Sample.staff = Return [] /\
  requests Sample.staff
    (after (Professionals.getProfessionals Store.exec SampleFaults.reloading)
       Sample.staff) = [].
Proof.
  destruct (getProfessionals_waits_for_auth Store.Remote Store.exec
              SampleFaults.reloading Sample.staff eq_refl)
    as (Hres & _ & Hreq & _).
  split; [exact Hres|exact Hreq].
Defined.

(** X3. The two reading operations send at most one request and never
    an insert, an update or a delete, whoever calls them and whatever
    the client answers. *)
Theorem reads_never_write :
  forall (R : Type) (exec : Request -> R -> Settled * R) (auth : Auth)
         (s : Sys Professionals.Hook R) (id : string),
    (let s' := after (Professionals.getProfessionals exec auth) s in
     (length (requests s s') <= 1)%nat /\ no_write (news s s')) /\
    (let s' := after (Professionals.getProfessionalById exec auth id) s in
     (length (requests s s') <= 1)%nat /\ no_write (news s s')).
Proof.
  intros R exec [[u|] al] s id; cbv zeta;
    unfold Professionals.getProfessionals, Professionals.getProfessionalById,
      Professionals.setLoading, no_write;
    cbn [user authLoading]; split; run;
    try (destruct al; cbn);
    try (answer exec);
    unfold requests; repeat news_of_trace; cbn; split; (lia || reflexivity).
Qed.

(** X4. For a signed-in user each writing operation raises exactly one
    notification, whatever the client answers.  For update and delete it
    is the destructive one exactly when the operation returns null or
    false; for create a destructive notification always comes with
    null. *)
Theorem writes_notify_once :
  forall (R : Type) (exec : Request -> R -> Settled * R) (auth : Auth)
         (u : User) (s : Sys Professionals.Hook R) (id : string)
         (professionalData : Row),
    user auth = Some u ->
    (exists t : Toast,
        toasts s (after (Professionals.createProfessional exec auth professionalData) s)
        = [t] /\
        (destructive t = true ->
         result (Professionals.createProfessional exec auth professionalData) s
         = Return None)) /\
    (exists t : Toast,
        toasts s
          (after (Professionals.updateProfessional exec auth id professionalData) s)
        = [t] /\
        (destructive t = true <->
         result (Professionals.updateProfessional exec auth id professionalData) s
         = Return None)) /\
    (exists t : Toast,
        toasts s (after (Professionals.deleteProfessional exec auth id) s) = [t] /\
        (destructive t = true <->
         result (Professionals.deleteProfessional exec auth id) s = Return false)).
Proof.
  intros R exec [usr al] u s id professionalData Hu. cbn in Hu. subst usr.
  unfold Professionals.createProfessional, Professionals.updateProfessional,
    Professionals.deleteProfessional, Professionals.setLoading.
  cbn [user authLoading]. repeat split.
  - run. answer exec; unfold toasts; news_of_trace; cbn;
      eexists; (split; [reflexivity|]); cbn; intros; (reflexivity || discriminate).
  - run. answer exec; [| destruct (row_or_null (data reply)); cbn |];
      unfold toasts; news_of_trace; cbn;
      eexists; (split; [reflexivity|]); cbn;
      split; intros; (reflexivity || discriminate).
  - run. answer exec; unfold toasts; news_of_trace; cbn;
      eexists; (split; [reflexivity|]); cbn;
      split; intros; (reflexivity || discriminate).
Qed.

Lemma writes_notify_once_witness :
  exists t : Toast,
    toasts SampleFaults.down
      (after (Professionals.deleteProfessional Store.exec Sample.signed_in "p1")
         SampleFaults.down) = [t] /\
    (destructive t = true <->
     result (Professionals.deleteProfessional Store.exec Sample.signed_in "p1")
       SampleFaults.down = Return false).
Proof.
  apply (writes_notify_once Store.Remote Store.exec Sample.signed_in Sample.ana
           SampleFaults.down "p1" ∅).
  reflexivity.
Defined.

(** X5. When the client answers a failure with error [e], a signed-in
    user gets the operation's empty answer and one destructive
    notification whose description is the message of [e], or the
    operation's own fallback text when that message is empty. *)
Theorem failure_message_is_shown :
  forall (R : Type) (exec : Request -> R -> Settled * R) (auth : Auth)
         (u : User) (s : Sys Professionals.Hook R) (e : Js.Error) (id : string)
         (professionalData : Row),
    user auth = Some u ->
    authLoading auth = false ->
    failing_with exec (remote s) e ->
    (result (Professionals.getProfessionals exec auth) s = Return [] /\
     toasts s (after (Professionals.getProfessionals exec auth) s)
     = [error_toast "Erro ao carregar profissionais"
          "Não foi possível carregar a lista de profissionais" e]) /\
    (result (Professionals.getProfessionalById exec auth id) s = Return None /\
     toasts s (after (Professionals.getProfessionalById exec auth id) s)
     = [error_toast "Erro ao carregar profissional"
          "Não foi possível carregar os dados do profissional" e]) /\
    (result (Professionals.createProfessional exec auth professionalData) s
     = Return None /\
     toasts s (after (Professionals.createProfessional exec auth professionalData) s)
     = [error_toast "Erro ao cadastrar profissional"
          "Não foi possível cadastrar o profissional" e]) /\
    (result (Professionals.updateProfessional exec auth id professionalData) s
     = Return None /\
     toasts s
       (after (Professionals.updateProfessional exec auth id professionalData) s)
     = [error_toast "Erro ao atualizar profissional"
          "Não foi possível atualizar os dados do profissional" e]) /\
    (result (Professionals.deleteProfessional exec auth id) s = Return false /\
     toasts s (after (Professionals.deleteProfessional exec auth id) s)
     = [error_toast "Erro ao remover profissional"
          "Não foi possível remover o profissional" e]).
Proof.
  intros R exec [usr al] u s e id professionalData Hu Hal Hfail.
  cbn in Hu, Hal. subst usr al.
  unfold Professionals.getProfessionals, Professionals.getProfessionalById,
    Professionals.createProfessional, Professionals.updateProfessional,
    Professionals.deleteProfessional, Professionals.setLoading, error_toast.
  cbn [user authLoading].
  repeat match goal with |- _ /\ _ => split end; run;
    match goal with
    | |- context [exec ?q (remote s)] =>
        destruct (Hfail q) as (r' & [E | (reply & E & Herr)]);
        rewrite E; cbn; try rewrite Herr; cbn
    end;
    unfold toasts; try news_of_trace; reflexivity.
Qed.

Lemma failure_message_is_shown_witness :
  toasts SampleFaults.down
    (after (Professionals.deleteProfessional Store.exec Sample.signed_in "p1")
       SampleFaults.down)
  = [{| title := "Erro ao remover profissional";
        description := "connection refused";
        variant := Some "destructive" |}].
Proof.
  refine (proj2 (proj2 (proj2 (proj2 (proj2
            (failure_message_is_shown Store.Remote Store.exec Sample.signed_in
               Sample.ana SampleFaults.down SampleStatsData.outage "p1" ∅
               eq_refl eq_refl _)))))).
  intros q. eexists. right. eexists. split; reflexivity.
Defined.

(** ** The professionals adapter in front of the modelled store *)

Lemma selected_by_id_and_owner (id : string) (u : User) (r : Row) :
  Store.selected (by_id_and_owner id u) r = true <->
  r !! "id" = Some (Js.Str id) /\ r !! "user_id" = Some (Js.Str (uid u)).
Proof.
  unfold Store.selected, by_id_and_owner. cbn [forallb Store.holds].
  rewrite andb_true_r, andb_true_iff, !bool_decide_eq_true. reflexivity.
Qed.

Lemma leb_total (a b : string) : String.leb a b = false -> String.leb b a = true.
Proof.
  unfold String.leb. rewrite (String.compare_antisym a b).
  destruct (String.compare b a); cbn; congruence.
Qed.

Lemma insert_by_sorted (c : string) (r : Row) (l : list Row) :
  Sorted (ascending c) l -> Sorted (ascending c) (Store.insert_by c r l).
Proof.
  induction l as [|x l IH]; intros Hs; cbn.
  - repeat constructor.
  - destruct (String.leb (Store.text c r) (Store.text c x)) eqn:E.
    + constructor; [exact Hs|]. constructor. exact E.
    + apply Sorted_inv in Hs as [Hs Hhd]. constructor; [apply IH, Hs|].
      destruct l as [|y l]; cbn.
      * constructor. apply leb_total, E.
      * destruct (String.leb (Store.text c r) (Store.text c y));
          constructor; [apply leb_total, E|].
        apply HdRel_inv in Hhd. exact Hhd.
Qed.

Lemma sort_by_sorted (c : string) (l : list Row) :
  Sorted (ascending c) (Store.sort_by c l).
Proof.
  unfold Store.sort_by. induction l as [|r l IH]; cbn; [constructor|].
  apply insert_by_sorted, IH.
Qed.

(** X6. For a signed-in user whose request the store serves, the list
    holds exactly the rows of the table that the user owns, in ascending
    order of [nome]. *)
Theorem getProfessionals_lists_own_rows :
  forall (auth : Auth) (u : User) (s : Sys Professionals.Hook Store.Remote),
    user auth = Some u ->
    authLoading auth = false ->
    Store.available (remote s) ->
    exists l : list Row,
      result (Professionals.getProfessionals Store.exec auth) s = Return l /\
      (forall r : Row,
          In r l <->
          In r (professionals_of s) /\ r !! "user_id" = Some (Js.Str (uid u))) /\
      Sorted (ascending "nome") l.
Proof.
  intros [usr al] u s Hu Hal Hav. cbn in Hu, Hal. subst usr al.
  unfold Professionals.getProfessionals, Professionals.setLoading.
  cbn [user authLoading]. run. rewrite (exec_available _ _ Hav). cbn.
  eexists. split; [reflexivity|]. split.
  - intros r. rewrite In_sort_by, filter_In. unfold professionals_of.
    unfold Store.selected. cbn [forallb Store.holds].
    rewrite andb_true_r, bool_decide_eq_true. reflexivity.
  - apply sort_by_sorted.
Qed.

Lemma getProfessionals_lists_own_rows_witness :
  exists l : list Row,
    result (Professionals.getProfessionals Store.exec Sample.signed_in)
      Sample.staff = Return l /\
    map (Store.text "nome") l = ["Abel"; "Zelia"].
Proof.
  destruct (getProfessionals_lists_own_rows Sample.signed_in Sample.ana
              Sample.staff eq_refl eq_refl I) as (l & Hl & _ & _).
  exists l. split; [exact Hl|].
  assert (E : result (Professionals.getProfessionals Store.exec Sample.signed_in)
                Sample.staff
              = Return [Sample.professional "p2" "Abel" "u1";
                        Sample.professional "p1" "Zelia" "u1"])
    by (vm_compute; reflexivity).
  rewrite E in Hl. injection Hl as <-. vm_compute. reflexivity.
Defined.

(** X7. Whatever the faults, a record that [getById] returns is a row of
    the table with the id asked for and owned by the caller: the rows of
    other users are never returned. *)
Theorem getProfessionalById_is_scoped :
  forall (auth : Auth) (u : User) (s : Sys Professionals.Hook Store.Remote)
         (id : string) (r : Row),
    user auth = Some u ->
    result (Professionals.getProfessionalById Store.exec auth id) s
    = Return (Some r) ->
    In r (professionals_of s) /\
    r !! "id" = Some (Js.Str id) /\
    r !! "user_id" = Some (Js.Str (uid u)).
Proof.
  intros [usr al] u s id r Hu. cbn in Hu. subst usr.
  unfold Professionals.getProfessionalById, Professionals.setLoading.
  cbn [user authLoading]. run. unfold Store.exec.
  destruct (Store.pending (remote s)) as [|[| |] rest]; cbn;
    try discriminate;
    (destruct (List.filter _ _) as [|r0 [|r1 rest']] eqn:E; cbn;
     try discriminate; intros [= <-];
     assert (Hin : In r0 [r0]) by (left; reflexivity);
     rewrite <- E in Hin; apply filter_In in Hin as [Hin Hsel];
     apply (selected_by_id_and_owner id u) in Hsel; tauto).
Qed.

Lemma getProfessionalById_is_scoped_witness :
  (Sample.professional "p1" "Zelia" "u1" : Row) !! "user_id"
  = Some (Js.Str "u1").
Proof.
  refine (proj2 (proj2
            (getProfessionalById_is_scoped Sample.signed_in Sample.ana
               Sample.staff "p1" (Sample.professional "p1" "Zelia" "u1")
               eq_refl _))).
  vm_compute. reflexivity.
Defined.

Lemma filter_none {A : Type} (f : A -> bool) (l : list A) :
  (forall x : A, In x l -> f x = false) -> List.filter f l = [].
Proof.
  induction l as [|x l IH]; intros H; cbn; [reflexivity|].
  rewrite (H x (or_introl eq_refl)). apply IH. intros y Hy. apply H. right. exact Hy.
Qed.

Lemma not_selected_elsewhere (id : string) (u : User) (r : Row) :
  elsewhere id u r -> Store.selected (by_id_and_owner id u) r = false.
Proof.
  intros He. destruct (Store.selected (by_id_and_owner id u) r) eqn:E;
    [|reflexivity].
  apply selected_by_id_and_owner in E as [E1 E2].
  destruct He as [He|He]; contradiction.
Qed.

(** X8. Creating a professional and reading it back: for a signed-in
    user, data without an id and a store that serves both requests and
    holds no row with the id it generates, [create] returns the data
    with the generated id and the caller's user id, and [getById] of
    that id returns the same record. *)
Theorem create_then_get_returns_the_record :
  forall (auth : Auth) (u : User) (s : Sys Professionals.Hook Store.Remote)
         (professionalData : Row),
    user auth = Some u ->
    Store.available (remote s) ->
    professionalData !! "id" = None ->
    (forall r : Row,
        In r (professionals_of s) -> r !! "id" <> Some (Js.Str (next_id s))) ->
    let s' := after (Professionals.createProfessional Store.exec auth professionalData) s in
    Store.available (remote s') ->
    let d := <["id" := Js.Str (next_id s)]>
               (<["user_id" := Js.Str (uid u)]> professionalData) in
    result (Professionals.createProfessional Store.exec auth professionalData) s
    = Return (Some d) /\
    result (Professionals.getProfessionalById Store.exec auth (next_id s)) s'
    = Return (Some d).
Proof.
  intros [usr al] u s professionalData Hu Hav Hnoid Hfresh s' Hav' d.
  cbn in Hu. subst usr.
  assert (Hrow : Store.with_id (Store.serial (remote s) + 0)
                   (<["user_id" := Js.Str (uid u)]> professionalData) = d).
  { unfold Store.with_id. rewrite lookup_insert_ne by discriminate.
    rewrite Hnoid, Nat.add_0_r. reflexivity. }
  assert (Hres : result
                   (Professionals.createProfessional Store.exec
                      {| user := Some u; authLoading := al |} professionalData) s
                 = Return (Some d) /\
                 professionals_of s' = professionals_of s ++ [d]).
  { unfold s', professionals_of.
    unfold Professionals.createProfessional, Professionals.setLoading.
    cbn [user authLoading]. run. rewrite (exec_available _ _ Hav). cbn.
    unfold Store.number. cbn [imap]. rewrite Hrow. cbn.
    split; [reflexivity|]. unfold Store.from. rewrite lookup_insert_eq.
    reflexivity. }
  destruct Hres as [Hres Htab]. split; [exact Hres|].
  rewrite (getProfessionalById_store {| user := Some u; authLoading := al |} u
             (next_id s) s' eq_refl Hav').
  fold (professionals_of s'). rewrite Htab, List.filter_app.
  fold (by_id_and_owner (next_id s) u).
  rewrite (filter_none (Store.selected (by_id_and_owner (next_id s) u))
             (professionals_of s)).
  - cbn [List.filter app].
    assert (Hsel : Store.selected (by_id_and_owner (next_id s) u) d = true).
    { apply selected_by_id_and_owner. unfold d. split.
      - apply lookup_insert_eq.
      - rewrite lookup_insert_ne by discriminate. apply lookup_insert_eq. }
    rewrite Hsel. reflexivity.
  - intros r Hr. apply not_selected_elsewhere. left. apply Hfresh, Hr.
Qed.

Lemma create_then_get_returns_the_record_witness :
  result
    (Professionals.getProfessionalById Store.exec Sample.signed_in "gen-0")
    (after
       (Professionals.createProfessional Store.exec Sample.signed_in
          {[ "nome" := Js.Str "Clara" ]}) Sample.staff)
  = Return
      (Some
         (<["id" := Js.Str "gen-0"]>
            (<["user_id" := Js.Str "u1"]> ({[ "nome" := Js.Str "Clara" ]} : Row)))).
Proof.
  refine (proj2
            (create_then_get_returns_the_record Sample.signed_in Sample.ana
               Sample.staff {[ "nome" := Js.Str "Clara" ]} eq_refl I eq_refl _ _)).
  - intros r Hr. change (In r [Sample.professional "p1" "Zelia" "u1";
                               Sample.professional "p2" "Abel" "u1";
                               Sample.professional "p3" "Bruno" "u2"]) in Hr.
    cbn in Hr. destruct Hr as [<-|[<-|[<-|[]]]]; vm_compute; discriminate.
  - vm_compute. exact I.
Defined.

Lemma deleteProfessional_store (auth : Auth) (u : User) (id : string)
  (s : Sys Professionals.Hook Store.Remote) :
  user auth = Some u -> Store.available (remote s) ->
  result (Professionals.deleteProfessional Store.exec auth id) s = Return true /\
  professionals_of (after (Professionals.deleteProfessional Store.exec auth id) s)
  = List.filter (fun r => negb (Store.selected (by_id_and_owner id u) r))
      (professionals_of s).
Proof.
  intros Hu Hav.
  unfold Professionals.deleteProfessional, Professionals.setLoading.
  rewrite Hu. run. rewrite (exec_available _ _ Hav). cbn.
  split; [reflexivity|]. unfold professionals_of, Store.from. cbn.
  rewrite lookup_insert_eq. reflexivity.
Qed.

(** X9. Deleting a professional and reading it back: when the store
    serves both requests, [delete] returns true and [getById] of the
    same id then returns null. *)
Theorem delete_then_get_is_null :
  forall (auth : Auth) (u : User) (s : Sys Professionals.Hook Store.Remote)
         (id : string),
    user auth = Some u ->
    Store.available (remote s) ->
    let s' := after (Professionals.deleteProfessional Store.exec auth id) s in
    Store.available (remote s') ->
    result (Professionals.deleteProfessional Store.exec auth id) s = Return true /\
    result (Professionals.getProfessionalById Store.exec auth id) s' = Return None.
Proof.
  intros auth u s id Hu Hav s' Hav'.
  destruct (deleteProfessional_store auth u id s Hu Hav) as [Hres Htab].
  split; [exact Hres|].
  rewrite (getProfessionalById_store auth u id s' Hu Hav').
  fold (professionals_of s') (by_id_and_owner id u). unfold s'. rewrite Htab.
  rewrite filter_none; [reflexivity|].
  intros r Hr. apply filter_In in Hr as [_ Hr].
  apply negb_true_iff in Hr. exact Hr.
Qed.

Lemma delete_then_get_is_null_witness :
  result (Professionals.getProfessionalById Store.exec Sample.signed_in "p1")
    (after (Professionals.deleteProfessional Store.exec Sample.signed_in "p1")
       Sample.staff)
  = Return None.
Proof.
  refine (proj2
            (delete_then_get_is_null Sample.signed_in Sample.ana Sample.staff
               "p1" eq_refl I _)).
  vm_compute. exact I.
Defined.

(** The table after an update or a delete, whatever the faults. *)
Lemma table_after_update (auth : Auth) (u : User) (id : string)
  (professionalData : Row) (s : Sys Professionals.Hook Store.Remote) :
  user auth = Some u ->
  let t' :=
    professionals_of
      (after (Professionals.updateProfessional Store.exec auth id professionalData) s) in
  t' = professionals_of s \/
  t' = map (fun r => if Store.selected (by_id_and_owner id u) r
                     then professionalData ∪ r else r) (professionals_of s).
Proof.
  intros Hu. cbv zeta.
  unfold Professionals.updateProfessional, Professionals.setLoading.
  rewrite Hu. run. unfold Store.exec.
  destruct (Store.pending (remote s)) as [|[| |] rest]; cbn;
    try (left; reflexivity);
    (right;
     destruct (List.filter _ _) as [|r0 [|r1 rest']]; cbn;
     unfold professionals_of, Store.from; cbn;
     rewrite lookup_insert_eq; reflexivity).
Qed.

Lemma table_after_delete (auth : Auth) (u : User) (id : string)
  (s : Sys Professionals.Hook Store.Remote) :
  user auth = Some u ->
  let t' :=
    professionals_of
      (after (Professionals.deleteProfessional Store.exec auth id) s) in
  t' = professionals_of s \/
  t' = List.filter (fun r => negb (Store.selected (by_id_and_owner id u) r))
         (professionals_of s).
Proof.
  intros Hu. cbv zeta.
  unfold Professionals.deleteProfessional, Professionals.setLoading.
  rewrite Hu. run. unfold Store.exec.
  destruct (Store.pending (remote s)) as [|[| |] rest]; cbn;
    try (left; reflexivity);
    (right; unfold professionals_of, Store.from; cbn;
     rewrite lookup_insert_eq; reflexivity).
Qed.

(** X10. Updates and deletes spare the other rows: whatever the faults
    and whatever the patch, a row that has another id or another owner
    than the ones addressed is still in the table, as it was, after an
    update and after a delete. *)
Theorem writes_spare_other_rows :
  forall (auth : Auth) (u : User) (s : Sys Professionals.Hook Store.Remote)
         (id : string) (professionalData r : Row),
    user auth = Some u ->
    In r (professionals_of s) ->
    elsewhere id u r ->
    In r
      (professionals_of
         (after (Professionals.updateProfessional Store.exec auth id professionalData) s))
    /\
    In r
      (professionals_of
         (after (Professionals.deleteProfessional Store.exec auth id) s)).
Proof.
  intros auth u s id professionalData r Hu Hin Hel.
  pose proof (not_selected_elsewhere id u r Hel) as Hsel.
  split.
  - destruct (table_after_update auth u id professionalData s Hu) as [-> | ->];
      [exact Hin|].
    apply in_map_iff. exists r. rewrite Hsel. split; [reflexivity|exact Hin].
  - destruct (table_after_delete auth u id s Hu) as [-> | ->]; [exact Hin|].
    apply filter_In. rewrite Hsel. split; [exact Hin|reflexivity].
Qed.

Lemma writes_spare_other_rows_witness :
  In (Sample.professional "p3" "Bruno" "u2")
    (professionals_of
       (after (Professionals.deleteProfessional Store.exec Sample.signed_in "p3")
          Sample.staff)).
Proof.
  refine (proj2
            (writes_spare_other_rows Sample.signed_in Sample.ana Sample.staff
               "p3" ∅ (Sample.professional "p3" "Bruno" "u2") eq_refl _ _)).
  - right. right. left. reflexivity.
  - right. vm_compute. discriminate.
Defined.

(** X11. Updating an id that the caller does not own: when the store
    serves the request and no row has that id and that owner, [update]
    returns null with one destructive notification and the table is as
    it was (where [delete] would report success). *)
Theorem update_without_match_changes_nothing :
  forall (auth : Auth) (u : User) (s : Sys Professionals.Hook Store.Remote)
         (id : string) (professionalData : Row),
    user auth = Some u ->
    Store.available (remote s) ->
    (forall r : Row, In r (professionals_of s) -> elsewhere id u r) ->
    let s' :=
      after (Professionals.updateProfessional Store.exec auth id professionalData) s in
    result (Professionals.updateProfessional Store.exec auth id professionalData) s
    = Return None /\
    professionals_of s' = professionals_of s /\
    toasts s s'
    = [error_toast "Erro ao atualizar profissional"
         "Não foi possível atualizar os dados do profissional" Store.no_rows].
Proof.
  intros auth u s id professionalData Hu Hav Hnone s'.
  assert (Hsel : forall r, In r (professionals_of s) ->
                           Store.selected (by_id_and_owner id u) r = false).
  { intros r Hr. apply not_selected_elsewhere, Hnone, Hr. }
  assert (Hmap : map (fun r => if Store.selected (by_id_and_owner id u) r
                               then professionalData ∪ r else r)
                   (professionals_of s) = professionals_of s).
  { rewrite <- (map_id (professionals_of s)) at 2.
    apply map_ext_in. intros r Hr. rewrite (Hsel r Hr). reflexivity. }
  unfold s'.
  unfold Professionals.updateProfessional, Professionals.setLoading.
  rewrite Hu. run. rewrite (exec_available _ _ Hav). cbn.
  fold (by_id_and_owner id u) (professionals_of s).
  rewrite (filter_none _ _ Hsel). cbn.
  split; [reflexivity|]. split.
  - unfold professionals_of at 1. unfold Store.from. cbn.
    rewrite lookup_insert_eq. cbn. exact Hmap.
  - unfold toasts. news_of_trace. reflexivity.
Qed.

Lemma update_without_match_changes_nothing_witness :
  result
    (Professionals.updateProfessional Store.exec Sample.signed_in "p3"
       {[ "nome" := Js.Str "Bia" ]}) Sample.staff
  = Return None.
Proof.
  refine (proj1
            (update_without_match_changes_nothing Sample.signed_in Sample.ana
               Sample.staff "p3" {[ "nome" := Js.Str "Bia" ]} eq_refl I _)).
  intros r Hr. change (In r [Sample.professional "p1" "Zelia" "u1";
                             Sample.professional "p2" "Abel" "u1";
                             Sample.professional "p3" "Bruno" "u2"]) in Hr.
  cbn in Hr. destruct Hr as [<-|[<-|[<-|[]]]].
  - left. vm_compute. discriminate.
  - left. vm_compute. discriminate.
  - right. vm_compute. discriminate.
Defined.

(** ** Today's appointments, whatever the client answers *)

Ltac unfold_today :=
  unfold loadTodayAppointments_of,
    TodayAppointments.First.loadTodayAppointments,
    TodayAppointments.Second.loadTodayAppointments,
    TodayAppointments.Second.waiting,
    TodayAppointments.setLoading, TodayAppointments.setAppointments.

(** X12. The two listings of the hook differ on the console only: from
    the same state, for the same caller and client, a refresh ends with
    the same appointments, the same loading flag, the same remote and
    the same requests sent. *)
Theorem listings_agree :
  forall (R : Type) (exec : Request -> R -> Settled * R)
         (toLocaleTimeString : option Js.Value -> string) (auth : Auth)
         (s : Sys TodayAppointments.Hook R),
    let s1 := after (loadTodayAppointments_of first_listing exec
                       toLocaleTimeString auth) s in
    let s2 := after (loadTodayAppointments_of second_listing exec
                       toLocaleTimeString auth) s in
    hook s1 = hook s2 /\ remote s1 = remote s2 /\
    requests s s1 = requests s s2.
Proof.
  intros R exec tl [[u|] al] s; cbv zeta; unfold_today;
    cbn [user authLoading]; try destruct al; run;
    try (repeat split; unfold requests; repeat news_of_trace; reflexivity).
  answer exec; repeat split; unfold requests; repeat news_of_trace; reflexivity.
Qed.

(** X13. When the client answers a failure, a refresh by a signed-in
    user empties the appointments it held, clears the loading flag and
    raises no notification, in either listing. *)
Theorem failed_refresh_empties_appointments :
  forall (R : Type) (exec : Request -> R -> Settled * R)
         (toLocaleTimeString : option Js.Value -> string) (l : Listing)
         (auth : Auth) (u : User) (s : Sys TodayAppointments.Hook R)
         (e : Js.Error),
    user auth = Some u ->
    authLoading auth = false ->
    failing_with exec (remote s) e ->
    let s' := after (loadTodayAppointments_of l exec toLocaleTimeString auth) s in
    hook s'
    = {| TodayAppointments.appointments := [];
         TodayAppointments.loading := false |} /\
    toasts s s' = [].
Proof.
  intros R exec tl l [usr al] u s e Hu Hal Hfail. cbn in Hu, Hal. subst usr al.
  cbv zeta. destruct l; unfold_today; cbn [user authLoading]; run;
    match goal with
    | |- context [exec ?q (remote s)] =>
        destruct (Hfail q) as (r' & [E | (reply & E & Herr)]);
        rewrite E; cbn; try rewrite Herr; cbn
    end;
    (split; [reflexivity|]); unfold toasts; news_of_trace; reflexivity.
Qed.

Lemma failed_refresh_empties_appointments_witness :
  TodayAppointments.appointments
    (hook
       (after
          (loadTodayAppointments_of second_listing Store.exec Sample.shown
             Sample.signed_in) SampleTodayFaults.down))
  = [].
Proof.
  assert (H := proj1
            (failed_refresh_empties_appointments Store.Remote Store.exec
               Sample.shown second_listing Sample.signed_in Sample.ana
               SampleTodayFaults.down SampleStatsData.outage eq_refl eq_refl
               ltac:(intros q; eexists; right; eexists; split; reflexivity))).
  cbv zeta in H. rewrite H. reflexivity.
Defined.

(** X14. The two aggregation hooks are silent and read-only: whoever
    calls them and whatever the client answers, a refresh of the
    appointments (either listing) or of the statistics raises no
    notification and sends no insert, update or delete. *)
Theorem refreshes_are_silent_and_read_only :
  forall (R : Type) (exec : Request -> R -> Settled * R)
         (toLocaleTimeString : option Js.Value -> string) (l : Listing)
         (auth : Auth),
    (forall s : Sys TodayAppointments.Hook R,
        let s' := after (loadTodayAppointments_of l exec toLocaleTimeString auth) s in
        toasts s s' = [] /\ no_write (news s s')) /\
    (forall s : Sys Stats.Hook R,
        let s' := after (Stats.loadStats exec auth) s in
        toasts s s' = [] /\ no_write (news s s')).
Proof.
  intros R exec tl l [usr al]. split; intros s; cbv zeta.
  - destruct usr as [u|]; destruct l; unfold_today; unfold toasts, no_write;
      cbn [user authLoading]; try destruct al; run;
      try answer exec; split; repeat news_of_trace; reflexivity.
  - destruct usr as [u|];
      unfold Stats.loadStats, Stats.setLoading, Stats.setStats, toasts, no_write;
      cbn [user authLoading]; try destruct al; run;
      repeat match goal with
             | |- context [exec ?q ?r] =>
                 destruct (exec q r) as [[?|?] ?]; cbn
             end;
      split; repeat news_of_trace; reflexivity.
Qed.

(** X15. A refresh that passes the guard always ends with the loading
    flag cleared, whatever the client answers: in either listing of the
    appointments hook and in the stats hook. *)
Theorem refreshes_clear_loading :
  forall (R : Type) (exec : Request -> R -> Settled * R)
         (toLocaleTimeString : option Js.Value -> string) (l : Listing)
         (auth : Auth) (u : User),
    user auth = Some u ->
    authLoading auth = false ->
    (forall s : Sys TodayAppointments.Hook R,
        TodayAppointments.loading
          (hook (after (loadTodayAppointments_of l exec toLocaleTimeString auth) s))
        = false) /\
    (forall s : Sys Stats.Hook R,
        Stats.loading (hook (after (Stats.loadStats exec auth) s)) = false).
Proof.
  intros R exec tl l [usr al] u Hu Hal. cbn in Hu, Hal. subst usr al.
  split; intros s.
  - destruct l; unfold_today; cbn [user authLoading]; run;
      answer exec; reflexivity.
  - unfold Stats.loadStats, Stats.setLoading, Stats.setStats.
    cbn [user authLoading]. run.
    destruct (exec _ _) as [[r1|e1] R1]; cbn;
      [destruct (exec _ R1) as [[r2|e2] R2]; cbn;
       [destruct (exec _ R2) as [[r3|e3] R3]; cbn|]|];
      reflexivity.
Qed.

Lemma refreshes_clear_loading_witness :
  Stats.loading
    (hook (after (Stats.loadStats Store.exec Sample.signed_in)
             SampleStatsData.failing))
  = false.
Proof.
  apply (proj2
           (refreshes_clear_loading Store.Remote Store.exec Sample.shown
              first_listing Sample.signed_in Sample.ana eq_refl eq_refl)).
Defined.

(** ** Today's appointments in front of the modelled store *)

Lemma append_empty_r (s : string) : s +:+ "" = s.
Proof. induction s as [|x s IH]; simpl; [reflexivity|]. rewrite IH. reflexivity. Qed.

(** X16. The appointments of other users are never listed: a row of the
    table that another user owns is not among the appointments after a
    refresh, whatever its date. *)
Theorem other_users_appointments_are_not_listed :
  forall (l : Listing) (toLocaleTimeString : option Js.Value -> string)
         (auth : Auth) (u : User)
         (s : Sys TodayAppointments.Hook Store.Remote) (r : Row) (i : string),
    user auth = Some u ->
    authLoading auth = false ->
    Store.available (remote s) ->
    In r (Store.from "appointments" (Store.tables (remote s))) ->
    (forall r' : Row,
        In r' (Store.from "appointments" (Store.tables (remote s))) ->
        r' !! "id" = Some (Js.Str i) -> r' = r) ->
    r !! "id" = Some (Js.Str i) ->
    r !! "user_id" <> Some (Js.Str (uid u)) ->
    ~ listed i
        (hook (after (loadTodayAppointments_of l Store.exec toLocaleTimeString auth) s)).
Proof.
  intros l tl auth u s r i Hu Ha Hav Hin Hkey Hid Hother Hl.
  apply (listed_iff_selected l tl auth u s r i Hu Ha Hav Hin Hkey Hid) in Hl.
  unfold Store.selected in Hl.
  cbn [TodayAppointments.today_request filters forallb Store.holds] in Hl.
  apply andb_prop in Hl as [Hl _]. apply bool_decide_eq_true in Hl.
  contradiction.
Qed.

Lemma other_users_appointments_are_not_listed_witness :
  ~ listed "a1"
      (hook
         (after
            (loadTodayAppointments_of first_listing Store.exec Sample.shown
               {| user := Some {| uid := "u2" |}; authLoading := false |})
            SampleWindow.mounted)).
Proof.
  refine (other_users_appointments_are_not_listed first_listing Sample.shown
            {| user := Some {| uid := "u2" |}; authLoading := false |}
            {| uid := "u2" |} SampleWindow.mounted SampleWindow.last_second "a1"
            eq_refl eq_refl I _ _ eq_refl _).
  - right. left. reflexivity.
  - intros r' Hr' Hi'.
    change (In r' [SampleWindow.next_morning; SampleWindow.last_second;
                   SampleWindow.first_second]) in Hr'.
    cbn in Hr'. destruct Hr' as [<-|[<-|[<-|[]]]];
      try reflexivity; vm_compute in Hi'; discriminate.
  - vm_compute. discriminate.
Defined.

(** X17. Within the day the hook asks for, which is the date in UTC at
    the instant of the refresh, the window stops short of the last
    second: a row of the caller scheduled on that day at time [t] (the
    text after the [T]) is listed exactly when [t] is below [23:59:59]
    in the order of texts, so that 23:59:59 and its fractions are left
    out. *)
Theorem listed_today_iff_before_last_second :
  forall (l : Listing) (toLocaleTimeString : option Js.Value -> string)
         (auth : Auth) (u : User)
         (s : Sys TodayAppointments.Hook Store.Remote)
         (r : Row) (i t : string),
    user auth = Some u ->
    authLoading auth = false ->
    Store.available (remote s) ->
    In r (Store.from "appointments" (Store.tables (remote s))) ->
    (forall r' : Row,
        In r' (Store.from "appointments" (Store.tables (remote s))) ->
        r' !! "id" = Some (Js.Str i) -> r' = r) ->
    r !! "id" = Some (Js.Str i) ->
    r !! "user_id" = Some (Js.Str (uid u)) ->
    r !! "data_agendamento"
    = Some (Js.Str (TodayAppointments.hoje_of (now s) +:+ "T" +:+ t)) ->
    listed i
      (hook (after (loadTodayAppointments_of l Store.exec toLocaleTimeString auth) s))
    <-> String.ltb t "23:59:59" = true.
Proof.
  intros l tl auth u s r i t Hu Ha Hav Hin Hkey Hid Howner Hts.
  rewrite (listed_iff_selected l tl auth u s r i Hu Ha Hav Hin Hkey Hid).
  rewrite (selected_today u _ _ r Howner Hts).
  rewrite leb_prefix. cbn [andb]. unfold String.ltb.
  rewrite compare_app_same. reflexivity.
Qed.

Lemma listed_today_iff_before_last_second_witness :
  listed "a0"
    (hook
       (after
          (loadTodayAppointments_of first_listing Store.exec Sample.shown
             Sample.signed_in) SampleWindow.mounted)).
Proof.
  refine (proj2
            (listed_today_iff_before_last_second first_listing Sample.shown
               Sample.signed_in Sample.ana SampleWindow.mounted
               SampleWindow.first_second "a0" "00:00:00"
               eq_refl eq_refl I _ _ eq_refl eq_refl _) eq_refl).
  - right. right. left. reflexivity.
  - intros r' Hr' Hi'.
    change (In r' [SampleWindow.next_morning; SampleWindow.last_second;
                   SampleWindow.first_second]) in Hr'.
    cbn in Hr'. destruct Hr' as [<-|[<-|[<-|[]]]];
      try reflexivity; vm_compute in Hi'; discriminate.
  - vm_compute. reflexivity.
Defined.

(** X18. Yesterday is out of the window: from 1970-01-02 on and within
    the years of four digits, a row of the caller scheduled on the day
    before today, at whatever time, is not listed. *)
Theorem yesterday_is_not_listed :
  forall (l : Listing) (toLocaleTimeString : option Js.Value -> string)
         (auth : Auth) (u : User)
         (s : Sys TodayAppointments.Hook Store.Remote)
         (r : Row) (i rest : string),
    user auth = Some u ->
    authLoading auth = false ->
    Store.available (remote s) ->
    In r (Store.from "appointments" (Store.tables (remote s))) ->
    (forall r' : Row,
        In r' (Store.from "appointments" (Store.tables (remote s))) ->
        r' !! "id" = Some (Js.Str i) -> r' = r) ->
    r !! "id" = Some (Js.Str i) ->
    r !! "user_id" = Some (Js.Str (uid u)) ->
    Date.msPerDay <= now s ->
    Date.year (Date.civil_of_day (now s / Date.msPerDay)) <= 9999 ->
    r !! "data_agendamento"
    = Some (Js.Str (TodayAppointments.hoje_of (now s - Date.msPerDay) +:+ rest)) ->
    ~ listed i
        (hook (after (loadTodayAppointments_of l Store.exec toLocaleTimeString auth) s)).
Proof.
  intros l tl auth u s r i rest Hu Ha Hav Hin Hkey Hid Howner Hday Hy Hts Hl.
  apply (listed_iff_selected l tl auth u s r i Hu Ha Hav Hin Hkey Hid) in Hl.
  rewrite (selected_today u _ _ r Howner Hts) in Hl.
  apply andb_prop in Hl as [Hl _].
  assert (E : now s - Date.msPerDay + Date.msPerDay = now s) by lia.
  destruct (hoje_next_day (now s - Date.msPerDay) rest "") as [Hcmp _].
  - lia.
  - rewrite E. exact Hy.
  - rewrite E, append_empty_r in Hcmp.
    unfold String.leb in Hl. rewrite String.compare_antisym, Hcmp in Hl.
    discriminate.
Qed.

Lemma yesterday_is_not_listed_witness :
  ~ listed "a9"
      (hook
         (after
            (loadTodayAppointments_of second_listing Store.exec Sample.shown
               Sample.signed_in) SampleYesterday.mounted)).
Proof.
  refine (yesterday_is_not_listed second_listing Sample.shown Sample.signed_in
            Sample.ana SampleYesterday.mounted SampleYesterday.stale "a9"
            "T10:00:00" eq_refl eq_refl I _ _ eq_refl eq_refl _ _ _).
  - left. reflexivity.
  - intros r' Hr' Hi'.
    change (In r' [SampleYesterday.stale]) in Hr'.
    cbn in Hr'. destruct Hr' as [<-|[]]. reflexivity.
  - vm_compute. discriminate.
  - vm_compute. discriminate.
  - vm_compute. reflexivity.
Defined.

(** What the hook holds after a refresh that the store serves: the view
    of each selected row, in the order of the rows. *)
Lemma today_view (l : Listing) (toLocaleTimeString : option Js.Value -> string)
  (auth : Auth) (u : User) (s : Sys TodayAppointments.Hook Store.Remote) :
  user auth = Some u -> authLoading auth = false ->
  Store.available (remote s) ->
  TodayAppointments.appointments
    (hook (after (loadTodayAppointments_of l Store.exec toLocaleTimeString auth) s))
  = map
      (fun r : Row =>
         TodayAppointments.format toLocaleTimeString
           (Store.embed (Store.tables (remote s))
              [("patient", "patients", "nome");
               ("professional", "professionals", "nome")] r))
      (Store.sort_by "data_agendamento"
         (List.filter
            (Store.selected
               (filters
                  (TodayAppointments.today_request u
                     (TodayAppointments.hoje_of (now s)))))
            (Store.from "appointments" (Store.tables (remote s))))).
Proof.
  intros Hu Ha Hav.
  destruct l; unfold_today; rewrite Hu, Ha; run;
    rewrite (exec_available _ _ Hav); cbn; rewrite !map_map; reflexivity.
Qed.

Lemma expand_unrelated (db : gmap string (list Row)) (alias t c : string)
  (r : Row) :
  unrelated db alias t r -> Store.expand db r (alias, t, c) = None.
Proof.
  unfold unrelated, Store.expand.
  destruct (r !! (alias +:+ "_id")) as [key|]; [|reflexivity].
  intros Hno.
  destruct (List.find _ _) as [x|] eqn:E; [|reflexivity].
  apply find_some in E as [Hin Hx]. apply bool_decide_eq_true in Hx.
  destruct (Hno x Hin Hx).
Qed.

Lemma expand_alias (db : gmap string (list Row)) (alias t c : string)
  (r : Row) (a : string) (x : Row) :
  Store.expand db r (alias, t, c) = Some (a, x) -> a = alias.
Proof.
  unfold Store.expand.
  destruct (r !! (alias +:+ "_id")) as [key|]; [|discriminate].
  destruct (List.find _ _) as [y|]; [|discriminate].
  intros [= <- _]. reflexivity.
Qed.

Lemma embed_unrelated_patient (db : gmap string (list Row)) (r : Row) :
  unrelated db "patient" "patients" r ->
  related
    (Store.embed db
       [("patient", "patients", "nome");
        ("professional", "professionals", "nome")] r) !! "patient" = None.
Proof.
  intros Hno. unfold Store.embed. cbn [related]. unfold omap, list_omap.
  rewrite (expand_unrelated db "patient" "patients" "nome" r Hno).
  destruct (Store.expand db r ("professional", "professionals", "nome"))
    as [[a x]|] eqn:E; cbn; [|reflexivity].
  apply expand_alias in E. subst a.
  rewrite lookup_insert_ne by discriminate. reflexivity.
Qed.

Lemma embed_unrelated_professional (db : gmap string (list Row)) (r : Row) :
  unrelated db "professional" "professionals" r ->
  related
    (Store.embed db
       [("patient", "patients", "nome");
        ("professional", "professionals", "nome")] r) !! "professional" = None.
Proof.
  intros Hno. unfold Store.embed. cbn [related]. unfold omap, list_omap.
  rewrite (expand_unrelated db "professional" "professionals" "nome" r Hno).
  destruct (Store.expand db r ("patient", "patients", "nome"))
    as [[a x]|] eqn:E; cbn; [|reflexivity].
  apply expand_alias in E. subst a.
  rewrite lookup_insert_ne by discriminate. reflexivity.
Qed.

(** X19. Rows with missing parts are still shown, with the literals of
    the hook: a row of the caller scheduled today before the last second
    yields an appointment with the row's id whose patient is
    [Paciente não encontrado] when the row points to no patient on
    file, whose doctor is [Profissional não encontrado] when it points
    to no professional, whose type is [Consulta] and whose status is
    [confirmado] when the row has none. *)
Theorem missing_parts_fall_back :
  forall (l : Listing) (toLocaleTimeString : option Js.Value -> string)
         (auth : Auth) (u : User)
         (s : Sys TodayAppointments.Hook Store.Remote) (r : Row) (t : string),
    user auth = Some u ->
    authLoading auth = false ->
    Store.available (remote s) ->
    In r (Store.from "appointments" (Store.tables (remote s))) ->
    r !! "user_id" = Some (Js.Str (uid u)) ->
    r !! "data_agendamento"
    = Some (Js.Str (TodayAppointments.hoje_of (now s) +:+ "T" +:+ t)) ->
    String.ltb t "23:59:59" = true ->
    exists a : TodayAppointments.TodayAppointment,
      In a
        (TodayAppointments.appointments
           (hook
              (after (loadTodayAppointments_of l Store.exec toLocaleTimeString auth) s)))
      /\ TodayAppointments.id a = r !! "id"
      /\ (unrelated (Store.tables (remote s)) "patient" "patients" r ->
          TodayAppointments.patient a = "Paciente não encontrado")
      /\ (unrelated (Store.tables (remote s)) "professional" "professionals" r ->
          TodayAppointments.doctor a = "Profissional não encontrado")
      /\ (r !! "tipo" = None -> TodayAppointments.type a = "Consulta")
      /\ (r !! "status" = None -> TodayAppointments.status a = "confirmado").
Proof.
  intros l tl auth u s r t Hu Ha Hav Hin Howner Hts Ht.
  rewrite (today_view l tl auth u s Hu Ha Hav).
  eexists. split.
  - apply in_map_iff. exists r. split; [reflexivity|].
    apply In_sort_by, filter_In. split; [exact Hin|].
    rewrite (selected_today u _ _ r Howner Hts), leb_prefix. cbn [andb].
    unfold String.ltb in *. rewrite compare_app_same. exact Ht.
  - unfold TodayAppointments.format.
    cbn [TodayAppointments.id TodayAppointments.patient TodayAppointments.doctor
         TodayAppointments.type TodayAppointments.status row].
    split; [reflexivity|]. split; [|split; [|split]].
    + intros Hno. rewrite (embed_unrelated_patient _ r Hno). reflexivity.
    + intros Hno. rewrite (embed_unrelated_professional _ r Hno). reflexivity.
    + intros Hnone. unfold Store.embed. cbn [row]. rewrite Hnone. reflexivity.
    + intros Hnone. unfold Store.embed. cbn [row]. rewrite Hnone. reflexivity.
Qed.

Lemma missing_parts_fall_back_witness :
  exists a : TodayAppointments.TodayAppointment,
    In a
      (TodayAppointments.appointments
         (hook
            (after
               (loadTodayAppointments_of second_listing Store.exec Sample.shown
                  Sample.signed_in) SampleOrphan.mounted)))
    /\ TodayAppointments.patient a = "Paciente não encontrado"
    /\ TodayAppointments.type a = "Consulta".
Proof.
  destruct (missing_parts_fall_back second_listing Sample.shown Sample.signed_in
              Sample.ana SampleOrphan.mounted SampleOrphan.orphan "10:00:00"
              eq_refl eq_refl I (or_introl eq_refl) eq_refl eq_refl eq_refl)
    as (a & Hin & _ & Hp & _ & Ht & _).
  exists a. split; [exact Hin|]. split.
  - apply Hp. unfold unrelated.
    change (SampleOrphan.orphan !! ("patient" +:+ "_id"))
      with (Some (Js.Str "x9")).
    intros x Hx.
    change (In x [ ({[ "id" := Js.Str "x1"; "nome" := Js.Str "Carla" ]} : Row) ])
      in Hx.
    cbn in Hx. destruct Hx as [<-|[]]. vm_compute. discriminate.
  - apply Ht. reflexivity.
Defined.

(** ** The statistics *)

(** X20. A manual refresh of the statistics while the user is absent or
    authentication is still loading does nothing at all: the state, the
    remote and the trace are as they were. *)
Theorem refreshStats_without_user_is_inert :
  forall (R : Type) (exec : Request -> R -> Settled * R) (auth : Auth)
         (s : Sys Stats.Hook R),
    user auth = None \/ authLoading auth = true ->
    Stats.loadStats exec auth s = (Return tt, s).
Proof.
  intros R exec [[u|] al] s [Hn|Ha]; cbn in *; try discriminate; subst;
    unfold Stats.loadStats; reflexivity.
Qed.

Lemma refreshStats_without_user_is_inert_witness :
  Stats.loadStats Store.exec Sample.resolving SampleStatsData.failing
  = (Return tt, SampleStatsData.failing).
Proof.
  apply (refreshStats_without_user_is_inert Store.Remote Store.exec
           Sample.resolving SampleStatsData.failing).
  left. reflexivity.
Defined.

(** X21. The statistics stay within the plan: if the limits held are the
    fixed ones (50, 10, 100) and the occupancy rate is at most 100, they
    still are after a refresh, whoever calls it and whatever the client
    answers. *)
Theorem loadStats_keeps_within_plan :
  forall (R : Type) (exec : Request -> R -> Settled * R) (auth : Auth)
         (s : Sys Stats.Hook R),
    within_plan (Stats.stats (hook s)) ->
    within_plan (Stats.stats (hook (after (Stats.loadStats exec auth) s))).
Proof.
  intros R exec [[u|] al] s Hw;
    unfold Stats.loadStats, Stats.setLoading, Stats.setStats;
    cbn [user authLoading]; try destruct al; run; try exact Hw.
  repeat match goal with
         | |- context [exec ?q ?r] => destruct (exec q r) as [[?|?] ?]; cbn
         end;
    try exact Hw.
  unfold within_plan, Js.Math_min. cbn. repeat split. apply Z.le_min_r.
Qed.

Lemma loadStats_keeps_within_plan_witness :
  within_plan
    (Stats.stats
       (hook (after (Stats.loadStats Store.exec Sample.signed_in)
                SampleStatsData.mid_march))).
Proof.
  apply (loadStats_keeps_within_plan Store.Remote Store.exec Sample.signed_in
           SampleStatsData.mid_march).
  unfold within_plan. cbn. lia.
Defined.



Lemma count_served (t : string) (fs : list Filter) (rm : Store.Remote) :
  Store.available rm ->
  Store.exec (Stats.count_request t fs) rm
  = (Fulfilled
       {| data := no_data; error := None;
          count :=
            Some
              (Z.of_nat
                 (length
                    (List.filter (Store.selected fs)
                       (Store.from t (Store.tables rm))))) |},
     {| Store.tables := Store.tables rm;
        Store.pending := tail (Store.pending rm);
        Store.serial := Store.serial rm |}).
Proof. intros Hav. rewrite (exec_available _ _ Hav). reflexivity. Qed.

Lemma length_insert_by (c : string) (r : Row) (l : list Row) :
  length (Store.insert_by c r l) = S (length l).
Proof.
  induction l as [|x l IH]; cbn; [reflexivity|].
  destruct (String.leb (Store.text c r) (Store.text c x)); cbn;
    [reflexivity|]. rewrite IH. reflexivity.
Qed.

Lemma length_sort_by (c : string) (l : list Row) :
  length (Store.sort_by c l) = length l.
Proof.
  unfold Store.sort_by. induction l as [|r l IH]; cbn; [reflexivity|].
  rewrite length_insert_by, IH. reflexivity.
Qed.

(** X23. The two hooks agree on today: in front of the same tables at
    the same instant, with a store that serves them, the count of
    today's appointments in the statistics is the number of appointments
    the other hook lists; and the count of patients is the number of
    patient rows the caller owns. *)
Theorem stats_count_what_is_listed :
  forall (l : Listing) (toLocaleTimeString : option Js.Value -> string)
         (auth : Auth) (u : User) (s : Sys Stats.Hook Store.Remote)
         (s2 : Sys TodayAppointments.Hook Store.Remote),
    user auth = Some u ->
    authLoading auth = false ->
    Store.pending (remote s) = [] ->
    Store.available (remote s2) ->
    Store.tables (remote s2) = Store.tables (remote s) ->
    now s2 = now s ->
    let st := Stats.stats (hook (after (Stats.loadStats Store.exec auth) s)) in
    Stats.agendamentosHoje st
    = Z.of_nat
        (length
           (TodayAppointments.appointments
              (hook
                 (after
                    (loadTodayAppointments_of l Store.exec toLocaleTimeString auth)
                    s2)))) /\
    Stats.pacientesCadastrados st
    = Z.of_nat
        (length
           (List.filter (owned_by u)
              (Store.from "patients" (Store.tables (remote s))))).
Proof.
  intros l tl auth u s s2 Hu Ha Hp Hav2 Htab Hnow st.
  destruct s as [h [tb pd sr] nw zn tr]. cbn in Hp, Htab, Hnow. subst pd.
  unfold st, after.
  set (rm := {| Store.tables := tb; Store.pending := []; Store.serial := sr |}).
  set (s0 := {| hook := h; remote := rm; now := nw; tz := zn; trace := tr |}).
  pose proof (count_served "patients" [f_eq "user_id" (uid u)] rm I) as E1.
  pose proof (count_served "appointments"
                (filters
                   (Stats.appointments_request u
                      (Date.split_head "T" (Date.toISOString nw)))) rm I) as E2.
  pose proof (count_served "consultations"
                (filters
                   (Stats.consultations_request u (Date.setDate zn 1 nw))) rm I)
    as E3.
  rewrite (loadStats_fulfilled Store.exec auth u Hu Ha s0 _ _ _ _ _ _ E1 E2 E3).
  cbn [snd hook Stats.stats Stats.agendamentosHoje Stats.pacientesCadastrados
       count Js.or_zero Store.tables].
  split.
  - fold (after (loadTodayAppointments_of l Store.exec tl auth) s2).
    rewrite (today_view l tl auth u s2 Hu Ha Hav2).
    rewrite length_map, length_sort_by, Htab, Hnow. reflexivity.
  - f_equal. f_equal. apply filter_ext. intros r.
    unfold Store.selected, owned_by. cbn [forallb Store.holds].
    apply andb_true_r.
Qed.

Lemma stats_count_what_is_listed_witness :
  Z.of_nat
    (length
       (TodayAppointments.appointments
          (hook
             (after
                (loadTodayAppointments_of second_listing Store.exec Sample.shown
                   Sample.signed_in) SampleBoth.today))))
  = 15.
Proof.
  rewrite <- (proj1
                (stats_count_what_is_listed second_listing Sample.shown
                   Sample.signed_in Sample.ana SampleStatsData.mid_march
                   SampleBoth.today eq_refl eq_refl eq_refl I eq_refl eq_refl)).
  vm_compute. reflexivity.
Defined.

(** ** Scoping by user *)

Ltac scoped_requests :=
  unfold requests; repeat news_of_trace; cbn [omap list_omap app];
  repeat
    (apply List.Forall_cons;
     [ first
         [ left; cbn [filters TodayAppointments.today_request
                        Stats.patients_request Stats.appointments_request
                        Stats.consultations_request Stats.count_request In];
           tauto
         | right; eexists; split;
           [ reflexivity
           | apply List.Forall_cons;
             [apply lookup_insert_eq | apply List.Forall_nil] ] ]
     | ]);
  apply List.Forall_nil.

(** X24. Every request that any of the hooks sends for a user is scoped
    to that user: it filters on the user's id or, for an insert, the row
    carries the user's id even if the data given held another one.
    This holds for the five operations on professionals, for both
    listings of today's appointments and for the statistics, whatever
    the state and whatever the client answers. *)
Theorem every_request_is_scoped :
  forall (R : Type) (exec : Request -> R -> Settled * R)
         (toLocaleTimeString : option Js.Value -> string) (l : Listing)
         (auth : Auth) (u : User) (id : string) (professionalData : Row),
    user auth = Some u ->
    (forall s : Sys Professionals.Hook R,
        Forall (scoped u)
          (requests s (after (Professionals.getProfessionals exec auth) s)) /\
        Forall (scoped u)
          (requests s (after (Professionals.getProfessionalById exec auth id) s)) /\
        Forall (scoped u)
          (requests s
             (after (Professionals.createProfessional exec auth professionalData) s)) /\
        Forall (scoped u)
          (requests s
             (after (Professionals.updateProfessional exec auth id professionalData) s)) /\
        Forall (scoped u)
          (requests s (after (Professionals.deleteProfessional exec auth id) s))) /\
    (forall s : Sys TodayAppointments.Hook R,
        Forall (scoped u)
          (requests s
             (after (loadTodayAppointments_of l exec toLocaleTimeString auth) s))) /\
    (forall s : Sys Stats.Hook R,
        Forall (scoped u) (requests s (after (Stats.loadStats exec auth) s))).
Proof.
  intros R exec tl l [usr al] u id professionalData Hu. cbn in Hu. subst usr.
  split; [|split]; intros s.
  - unfold Professionals.getProfessionals, Professionals.getProfessionalById,
      Professionals.createProfessional, Professionals.updateProfessional,
      Professionals.deleteProfessional, Professionals.setLoading.
    cbn [user authLoading].
    repeat match goal with |- _ /\ _ => split end; run;
      try (destruct al; cbn);
      try (answer exec; try destruct (row_or_null (data reply)); cbn);
      scoped_requests.
  - destruct l; unfold_today; cbn [user authLoading]; destruct al; run;
      try answer exec; scoped_requests.
  - unfold Stats.loadStats, Stats.setLoading, Stats.setStats.
    cbn [user authLoading]. destruct al; run;
      repeat match goal with
             | |- context [exec ?q ?r] =>
                 destruct (exec q r) as [[?|?] ?]; cbn
             end;
      scoped_requests.
Qed.

Lemma every_request_is_scoped_witness :
  Forall (scoped Sample.ana)
    (requests Sample.staff
       (after
          (Professionals.createProfessional Store.exec Sample.signed_in
             {[ "nome" := Js.Str "Clara"; "user_id" := Js.Str "u2" ]})
          Sample.staff)).
Proof.
  destruct
    (proj1
       (every_request_is_scoped Store.Remote Store.exec Sample.shown
          first_listing Sample.signed_in Sample.ana "p1"
          {[ "nome" := Js.Str "Clara"; "user_id" := Js.Str "u2" ]} eq_refl)
       Sample.staff) as (_ & _ & Hcreate & _).
  exact Hcreate.
Defined.
